(** * nbpy: exchange rates of the National Bank of Poland

    A shallow embedding of [nbpy/exchange_rate.py] (the value object
    [NBPExchangeRate]), of the parts of [tests/test_client.py] that fix the
    behaviour expected of [NBPClient], and of the client's [fetch] as the
    specification describes it, together with the properties the
    specification states about them.

    A Python object is modelled by its instance dictionary: a finite map from
    attribute names to values.  An attribute that was never assigned has no
    entry, which is different from an entry holding [None] or zero.  A method
    is a computation over a state (the receiver's dictionary, or the record
    of the requests sent so far) that returns a value or raises. *)

From Stdlib Require Import ZArith Ascii.
From stdpp Require Import base strings gmap pretty.
From Equations Require Import Equations.

Local Open Scope string_scope.

(** ** Python values, exceptions and outcomes *)

(** A calendar date, as [datetime.date] holds it. *)
Record Date := mkDate { year : nat; month : nat; day : nat }.

(** The values an attribute of an exchange rate can hold.  [num] is the
    numeric class of the rates: [Decimal], or [float] when the client was
    asked for floats. *)
Inductive value (num : Type) : Type :=
  | VNone
  | VStr (s : string)
  | VDate (d : Date)
  | VNum (x : num).
Arguments VNone {num}.
Arguments VStr {num} s.
Arguments VDate {num} d.
Arguments VNum {num} x.

(** The exceptions of [nbpy.errors], the builtin ones the code meets, and the
    validation error of a date range.  [APIError] carries the status code of
    the response when there is one. *)
Inductive exn : Type :=
  | AttributeError (attr : string)
  | TypeError
  | ValidationError
  | UnknownCurrencyCode (currency_code : string)
  | BidAskUnavailable
  | APIError (status : option Z).

Inductive result (A : Type) : Type :=
  | Ok (a : A)
  | Raise (e : exn).
Arguments Ok {A} a.
Arguments Raise {A} e.

(** A computation over a state [St]: it returns or raises, and leaves the
    state as its effects made it (an exception rolls nothing back). *)
Definition M (St A : Type) : Type := St → result A * St.

#[global] Instance M_ret {St} : MRet (M St) := λ A a st, (Ok a, st).

#[global] Instance M_bind {St} : MBind (M St) := λ A B f m st,
  match m st with
  | (Ok a, st') => f a st'
  | (Raise e, st') => (Raise e, st')
  end.

Definition raise {St A : Type} (e : exn) : M St A := λ st, (Raise e, st).

(** [try: body except <handles>: handler].  The handler runs on the state as
    the body left it; an exception it does not handle passes through. *)
Definition try_except {St A : Type} (body : M St A) (handles : exn → bool)
    (handler : M St A) : M St A :=
  λ st,
    match body st with
    | (Ok a, st') => (Ok a, st')
    | (Raise e, st') => if handles e then handler st' else (Raise e, st')
    end.

Definition is_AttributeError (e : exn) : bool :=
  match e with AttributeError _ => true | _ => false end.

Definition is_BidAskUnavailable (e : exn) : bool :=
  match e with BidAskUnavailable => true | _ => false end.

Definition is_APIError (e : exn) : bool :=
  match e with APIError _ => true | _ => false end.

(** An entry of [nbpy.currencies.currencies], with the attributes the tests
    read: [code], [name] and [tables]. *)
Record NBPCurrency := mkCurrency {
  code : string;
  name : string;
  tables : list string
}.

(** ** Strings: case mapping on ASCII letters and ISO dates *)

Definition ascii_upper (c : ascii) : ascii :=
  let n := N_of_ascii c in
  if ((97 <=? n) && (n <=? 122))%N then ascii_of_N (n - 32) else c.

Definition ascii_lower (c : ascii) : ascii :=
  let n := N_of_ascii c in
  if ((65 <=? n) && (n <=? 90))%N then ascii_of_N (n + 32) else c.

Fixpoint map_string (f : ascii → ascii) (s : string) : string :=
  match s with
  | EmptyString => EmptyString
  | String c s' => String (f c) (map_string f s')
  end.

(** [str.upper] and [str.lower] on strings of ASCII characters. *)
Definition str_upper : string → string := map_string ascii_upper.
Definition str_lower : string → string := map_string ascii_lower.

(** [str.zfill]: zeros on the left up to [width] characters. *)
Fixpoint zeros (n : nat) : string :=
  match n with
  | O => EmptyString
  | S n' => String "0" (zeros n')
  end.

Definition zfill (width : nat) (s : string) : string :=
  zeros (width - String.length s) +:+ s.

(** [date.strftime('%Y-%m-%d')], the ISO form [YYYY-MM-DD]. *)
Definition isoformat (d : Date) : string :=
  zfill 4 (pretty (year d)) +:+ "-" +:+ zfill 2 (pretty (month d))
  +:+ "-" +:+ zfill 2 (pretty (day d)).

(** [a <= b] on calendar dates. *)
Definition date_leb (a b : Date) : bool :=
  (year a <? year b)%nat
  || ((year a =? year b)%nat
      && ((month a <? month b)%nat
          || ((month a =? month b)%nat && (day a <=? day b)%nat))).

(** ** nbpy/exchange_rate.py *)

Module NBPExchangeRate.
Section exchange_rate.

(** The numeric class of the rates and its [*]. *)
Context {num : Type}.
Variable mul : num → num → num.

(** [str.upper]. *)
Variable upper : string → string.

(** [nbpy.currencies.currencies], a dictionary keyed by currency code. *)
Variable currencies : gmap string NBPCurrency.

(** The instance dictionary of an [NBPExchangeRate]. *)
Abbreviation obj := (gmap string (value num)).

(** [self.<attr>]: an attribute without an entry raises [AttributeError]. *)
Definition getattr (attr : string) : M obj (value num) := λ self,
  match self !! attr with
  | Some v => (Ok v, self)
  | None => (Raise (AttributeError attr), self)
  end.

(** [self.<attr> = v]. *)
Definition setattr (attr : string) (v : value num) : M obj unit := λ self,
  (Ok tt, <[attr := v]> self).

(** [v * amount] for a number [amount]: the product on numbers, [TypeError]
    on [None], strings and dates. *)
Definition py_mul (v : value num) (amount : num) : M obj (value num) :=
  match v with
  | VNum x => mret (VNum (mul x amount))
  | _ => raise TypeError
  end.

(** [kwargs.get(key)]. *)
Definition kwargs_get (kwargs : obj) (key : string) : value num :=
  default VNone (kwargs !! key).

(** The [currency_code] property: getter. *)
Definition currency_code : M obj (value num) := getattr "_currency_code".

(** The [currency_code] property: setter. *)
Definition set_currency_code (code : string) : M obj unit :=
  let code := upper code in
  if bool_decide (code ∉ dom currencies)
  then raise (UnknownCurrencyCode code)
  else setattr "_currency_code" (VStr code).

(** [NBPExchangeRate.__init__(self, currency_code, date, source_id, mid,
    **kwargs)]. *)
Definition __init__ (currency_code : string) (date source_id mid : value num)
    (kwargs : obj) : M obj unit :=
  set_currency_code currency_code;;
  setattr "date" date;;
  setattr "source_id" source_id;;
  setattr "mid" mid;;
  if bool_decide ("bid" ∈ dom kwargs) && bool_decide ("ask" ∈ dom kwargs)
  then
    setattr "bid" (kwargs_get kwargs "bid");;
    setattr "ask" (kwargs_get kwargs "ask")
  else mret tt.

(** [NBPExchangeRate(currency_code, date, source_id, mid, **kwargs)]:
    [__init__] run on a fresh instance, whose dictionary is empty. *)
Definition construct (currency_code : string) (date source_id mid : value num)
    (kwargs : obj) : result unit * obj :=
  __init__ currency_code date source_id mid kwargs ∅.

(** [NBPExchangeRate.__call__(self, amount_in_pln)]. *)
Definition __call__ (amount_in_pln : num) : M obj obj :=
  try_except
    (bid ← getattr "bid"; b ← py_mul bid amount_in_pln;
     ask ← getattr "ask"; a ← py_mul ask amount_in_pln;
     mid ← getattr "mid"; m ← py_mul mid amount_in_pln;
     mret ({[ "bid" := b; "ask" := a; "mid" := m ]} : obj))
    is_AttributeError
    (mid ← getattr "mid"; m ← py_mul mid amount_in_pln;
     mret ({[ "mid" := m ]} : obj)).

(** [NBPExchangeRate.__mul__(self, amount_in_pln)]. *)
Definition __mul__ (amount_in_pln : num) : M obj obj :=
  __call__ amount_in_pln.

(** [NBPExchangeRate.__rmul__(self, amount_in_pln)]. *)
Definition __rmul__ (amount_in_pln : num) : M obj obj :=
  __call__ amount_in_pln.

(** The builtin [str], through which [str.format] renders a field. *)
Variable py_str : value num → string.

(** [self.__class__.__name__] on an instance of the class itself. *)
Definition cls_name : string := "NBPExchangeRate".

(** [NBPExchangeRate.__repr__(self)].  The keyword arguments of [format] are
    evaluated from left to right. *)
Definition __repr__ : M obj string :=
  try_except
    (code ← currency_code; date ← getattr "date"; mid ← getattr "mid";
     bid ← getattr "bid"; ask ← getattr "ask";
     mret (cls_name +:+ "(" +:+ py_str code +:+ ", " +:+ py_str date
           +:+ ", mid=" +:+ py_str mid +:+ ", bid=" +:+ py_str bid
           +:+ ", ask=" +:+ py_str ask +:+ ")"))
    is_AttributeError
    (code ← currency_code; date ← getattr "date"; mid ← getattr "mid";
     mret (cls_name +:+ "(" +:+ py_str code +:+ ", " +:+ py_str date
           +:+ ", mid=" +:+ py_str mid +:+ ")")).

(** What a property that subscripts a dictionary does: it returns the item,
    raises one of the exceptions above, or raises the [KeyError] of the
    subscription, which carries the key. *)
Inductive subscripted (A : Type) : Type :=
  | Item (a : A)
  | Raised (e : exn)
  | KeyError (key : value num).
Arguments Item {A} a.
Arguments Raised {A} e.
Arguments KeyError {A} key.

(** The [currency_name] property: [currencies[self.currency_code]].  The
    registry is keyed by strings, so any other key is missing from it. *)
Definition currency_name (self : obj) : subscripted NBPCurrency * obj :=
  match currency_code self with
  | (Ok (VStr code), self') =>
      match currencies !! code with
      | Some currency => (Item currency, self')
      | None => (KeyError (VStr code), self')
      end
  | (Ok key, self') => (KeyError key, self')
  | (Raise e, self') => (Raised e, self')
  end.

End exchange_rate.

Arguments Item {num A} a.
Arguments Raised {num A} e.
Arguments KeyError {num A} key.

End NBPExchangeRate.

(** ** The client (nbpy/__init__.py), from the specification *)

Module NBPClient.

(** Modelled from the spec: the data of the client, which is not among the
    sources: how numeric fields are parsed, the shape of a request and the
    kind of rate asked for. *)
Inductive PrecisionMode := EXACT | APPROXIMATE.

Inductive RequestShape :=
  | CURRENT
  | TODAY
  | ON_DATE (date : Date)
  | RANGE (start end_ : Date).

Inductive RateKind := MID_ONLY | BID_ASK.

(** Modelled from the spec: the client's configuration, which is not among
    the sources. *)
Record Client := mkClient {
  currencyCode : string;
  precisionMode : PrecisionMode;
  suppressErrors : bool
}.

(** Modelled from the spec: what the transport collaborator answers, which
    is not among the sources: a status code and a body, or nothing at all
    when the connection failed. *)
Inductive TransportOutcome (Body : Type) :=
  | Response (statusCode : Z) (body : Body)
  | ConnectionFailure.
Arguments Response {Body} statusCode body.
Arguments ConnectionFailure {Body}.

(** Modelled from the spec: what a call returns, which is not among the
    sources: one rate, an ordered sequence of rates, or the absence value
    that stands for a suppressed failure. *)
Inductive FetchResult (Rate : Type) :=
  | Single (rate : Rate)
  | Sequence (rates : list Rate)
  | Absent.
Arguments Single {Rate} rate.
Arguments Sequence {Rate} rates.
Arguments Absent {Rate}.

Definition is_Absent {Rate : Type} (r : FetchResult Rate) : bool :=
  match r with Absent => true | _ => false end.

(** The identifier of the bid/ask table, as the tests name it. *)
Definition TABLE_BID_ASK : string := "C".

Section client.

Context {Body Rate : Type}.

(** [str.upper], [str.lower], the registry and the base of the locators. *)
Variable upper lower : string → string.
Variable currencies : gmap string NBPCurrency.
Variable BASE_URI : string.

(** The identifier of the mid-only table. *)
Variable TABLE_MID : string.

(** The transport collaborator, [get(url)].  Its answer may depend on the
    requests it has already served. *)
Variable transport : list string → string → TransportOutcome Body.

(** Steps 4 and 5 of [fetch]: the body parsed as one record, or as an ordered
    sequence of records, and a rate constructed from each record with the
    numeric fields in the configured precision.  JSON decoding and the
    numeric classes are external collaborators. *)
Variable parse_single : PrecisionMode → string → Body → result Rate.
Variable parse_sequence : PrecisionMode → string → Body → result (list Rate).

(** The state of the world a call runs in: the locators sent to the
    transport so far, oldest first. *)
Abbreviation Net := (M (list string)).

(** Modelled from the spec: the constructor of the client, which is not
    among the sources.  The currency code is validated against the registry
    as the exchange rate validates it. *)
Definition construct (currency_code : string) (precision : PrecisionMode)
    (suppress : bool) : result Client :=
  let code := upper currency_code in
  if bool_decide (code ∉ dom currencies)
  then Raise (UnknownCurrencyCode code)
  else Ok (mkClient code precision suppress).

(** Modelled from the spec: the membership test of step 1, which is not
    among the sources: whether the configured currency belongs to the
    bid/ask table. *)
Definition publishes_bid_ask (c : Client) : bool :=
  match currencies !! currencyCode c with
  | Some currency => bool_decide (TABLE_BID_ASK ∈ tables currency)
  | None => false
  end.

(** Modelled from the spec: the validation of the request shape, which is
    not among the sources: [start <= end] is required of a range. *)
Definition validate (shape : RequestShape) : Net unit :=
  match shape with
  | RANGE start end_ =>
      if date_leb start end_ then mret tt else raise ValidationError
  | _ => mret tt
  end.

(** Modelled from the spec: the table a request targets (step 2), which is
    not among the sources. *)
Definition target_table (kind : RateKind) : string :=
  match kind with MID_ONLY => TABLE_MID | BID_ASK => TABLE_BID_ASK end.

(** Modelled from the spec: the last segment of the locator (step 2), which
    is not among the sources. *)
Definition tail (shape : RequestShape) : string :=
  match shape with
  | CURRENT => ""
  | TODAY => "today"
  | ON_DATE date => isoformat date
  | RANGE start end_ => isoformat start +:+ "/" +:+ isoformat end_
  end.

(** Modelled from the spec: the resource locator the client builds, which
    is not among the sources.  The table identifier is in lower case, as in
    the locators the tests mock. *)
Definition locator (c : Client) (shape : RequestShape) (kind : RateKind)
    : string :=
  BASE_URI +:+ "/exchangerates/rates/" +:+ lower (target_table kind) +:+ "/"
  +:+ lower (currencyCode c) +:+ "/" +:+ tail shape.

(** Modelled from the spec: one invocation of the transport collaborator
    (step 3), which is not among the sources; the locator is added to the
    record of the requests sent. *)
Definition get (url : string) : Net (TransportOutcome Body) := λ sent,
  (Ok (transport sent url), (sent ++ [url])%list).

(** Modelled from the spec: the success statuses of step 3 (2xx), which are
    not among the sources. *)
Definition is_success (statusCode : Z) : bool :=
  (200 <=? statusCode)%Z && (statusCode <? 300)%Z.

(** A result that needs no request. *)
Definition lift {A : Type} (r : result A) : Net A := λ sent, (r, sent).

(** Modelled from the spec: steps 1 to 5 of [fetch], which is not among
    the sources. *)
Definition fetch_steps (c : Client) (shape : RequestShape) (kind : RateKind)
    : Net (FetchResult Rate) :=
  match kind with
  | BID_ASK =>
      if publishes_bid_ask c then mret tt else raise BidAskUnavailable
  | MID_ONLY => mret tt
  end;;
  let url := locator c shape kind in
  outcome ← get url;
  match outcome with
  | ConnectionFailure => raise (APIError None)
  | Response statusCode body =>
      if is_success statusCode then
        match shape with
        | RANGE _ _ =>
            rates ← lift (parse_sequence (precisionMode c) (currencyCode c) body);
            mret (Sequence rates)
        | _ =>
            rate ← lift (parse_single (precisionMode c) (currencyCode c) body);
            mret (Single rate)
        end
      else raise (APIError (Some statusCode))
  end.

(** Modelled from the spec: step 6 of [fetch], which is not among the
    sources: with [suppressErrors] a failure of steps 1 to 5 becomes the
    absence value. *)
Definition suppress (c : Client) (steps : Net (FetchResult Rate))
    : Net (FetchResult Rate) :=
  if suppressErrors c
  then try_except steps (λ _, true) (mret Absent)
  else steps.

(** Modelled from the spec: [fetch(requestShape, rateKind)], which is not
    among the sources.  A range is validated before the first step. *)
Definition fetch (c : Client) (shape : RequestShape) (kind : RateKind)
    : Net (FetchResult Rate) :=
  validate shape;;
  suppress c (fetch_steps c shape kind).

(** Modelled from the spec: the entry points, which are not among the
    sources.  Each fixes the request shape; a direct invocation of the
    client is the same request as [current]. *)
Definition current (c : Client) (kind : RateKind) : Net (FetchResult Rate) :=
  fetch c CURRENT kind.

Definition today (c : Client) (kind : RateKind) : Net (FetchResult Rate) :=
  fetch c TODAY kind.

Definition date (c : Client) (isoDate : Date) (kind : RateKind)
    : Net (FetchResult Rate) :=
  fetch c (ON_DATE isoDate) kind.

Definition range (c : Client) (isoStart isoEnd : Date) (kind : RateKind)
    : Net (FetchResult Rate) :=
  fetch c (RANGE isoStart isoEnd) kind.

Definition __call__ (c : Client) (kind : RateKind) : Net (FetchResult Rate) :=
  fetch c CURRENT kind.

End client.
End NBPClient.

(** ** The calendar of [datetime]

    What the tests use of [datetime]: the dates it can hold, and the
    addition of [timedelta(days=1)]. *)

(** [datetime.MAXYEAR], 9999. *)
Definition MAXYEAR : nat := 99 * 101.

Definition is_leap (y : nat) : bool :=
  (y mod 4 =? 0)%nat && (negb (y mod 100 =? 0)%nat || (y mod 400 =? 0)%nat).

Definition days_in_month (y m : nat) : nat :=
  match m with
  | 2 => if is_leap y then 29 else 28
  | 4 | 6 | 9 | 11 => 30
  | _ => 31
  end%nat.

(** The dates a [datetime] can hold. *)
Definition is_date (d : Date) : bool :=
  (1 <=? year d)%nat && (year d <=? MAXYEAR)%nat
  && (1 <=? month d)%nat && (month d <=? 12)%nat
  && (1 <=? day d)%nat && (day d <=? days_in_month (year d) (month d))%nat.

(** [d + timedelta(days=1)]; [None] stands for the [OverflowError] raised
    past the last day of [MAXYEAR]. *)
Definition add_day (d : Date) : option Date :=
  if (day d <? days_in_month (year d) (month d))%nat
  then Some (mkDate (year d) (month d) (S (day d)))
  else if (month d <? 12)%nat then Some (mkDate (year d) (S (month d)) 1)
  else if (year d <? MAXYEAR)%nat then Some (mkDate (S (year d)) 1 1)
  else None.

(** A bound on the days that can still be added to [d]. *)
Definition remaining (d : Date) : nat :=
  ((MAXYEAR - year d) * 416 + (12 - month d) * 32 + (31 - day d))%nat.

(** How a generator of dates ends: it is exhausted, or the addition of a
    day raised [OverflowError]. *)
Inductive ending := StopIteration | OverflowError.

(** [yield date], before the rest of the generator runs. *)
Definition yield (date : Date) (rest : list Date * ending)
    : list Date * ending :=
  (date :: rest.1, rest.2).

(** ** tests/test_client.py *)

Module TestClient.
Section tests.

Context {Body Rate : Type}.

(** [nbpy.BASE_URI], [str.upper] and [str.lower]. *)
Variable BASE_URI : string.
Variable upper lower : string → string.

(** What the client under test is given: the registry, the identifier of
    the mid-only table and the parsing of a body. *)
Variable currencies : gmap string NBPCurrency.
Variable TABLE_MID : string.
Variable parse_single : NBPClient.PrecisionMode → string → Body → result Rate.
Variable parse_sequence :
  NBPClient.PrecisionMode → string → Body → result (list Rate).

(** [MockJSONData.__init__]: the attribute [uri] of the mocked resource. *)
Definition MockJSONData_uri (table : string) (currency_obj : NBPCurrency)
    (tail : string) : string :=
  let self_table := upper table in
  BASE_URI +:+ "/exchangerates/rates/" +:+ lower self_table +:+ "/"
  +:+ lower (code currency_obj) +:+ "/" +:+ tail.

(** The entries of [calls_to_test] in [test_calls]: the method called, the
    [resource] mocked for it and its positional arguments. *)
Inductive method := m_current | m_today | m___call__ | m_date.

Record call := mkCall {
  call_name : method;
  call_resource : string;
  call_args : list Date
}.

(** [calls_to_test], for [kwargs['date']] the ISO form of the day [date]. *)
Definition calls_to_test (date : Date) : list call :=
  [ mkCall m_current "" [];
    mkCall m_today "today" [];
    mkCall m___call__ "" [];
    mkCall m_date (isoformat date) [date] ].

(** [bid_ask_should_fail = (bid_ask and 'C' not in kwargs['currency'].tables)]. *)
Definition bid_ask_should_fail (bid_ask : bool) (currency : NBPCurrency) : bool :=
  bid_ask && bool_decide ("C" ∉ tables currency).

(** [_test_converter_error(exception_cls)], as a check on what the call under
    test did: with [suppress_errors] the call returned [None], which
    [is_absent] recognises; without it the call raised an [exception_cls]. *)
Definition _test_converter_error {R : Type} (is_absent : R → bool)
    (suppress_errors : bool) (exception_cls : exn → bool)
    (outcome : result R) : bool :=
  if suppress_errors
  then match outcome with Ok r => is_absent r | Raise _ => false end
  else match outcome with Ok _ => false | Raise e => exception_cls e end.

(** The body of the loop of [test_calls] on a call that is expected to fail:
    the exception class is [BidAskUnavailable] when the bid/ask call should
    fail, whatever the status, and [APIError] on another status than 200.
    [None] stands for the last branch, "All should be fine". *)
Definition expected_exception (bid_ask : bool) (status_code : Z)
    (currency : NBPCurrency) : option (exn → bool) :=
  if bool_decide (status_code ≠ 200%Z) then
    if bid_ask_should_fail bid_ask currency
    then Some is_BidAskUnavailable
    else Some is_APIError
  else if bid_ask_should_fail bid_ask currency then Some is_BidAskUnavailable
  else None.

(** [_converter], applied to the keyword arguments of a test: the client
    under test, with [as_float] read as the approximate precision. *)
Definition _converter (currency_code : string) (as_float suppress_errors : bool)
    : result NBPClient.Client :=
  NBPClient.construct upper currencies currency_code
    (if as_float then NBPClient.APPROXIMATE else NBPClient.EXACT)
    suppress_errors.

Definition as_float (converter : NBPClient.Client) : bool :=
  match NBPClient.precisionMode converter with
  | NBPClient.APPROXIMATE => true
  | NBPClient.EXACT => false
  end.

(** [test_converter_basic]: the converter is constructed and shows the
    arguments it was constructed with. *)
Definition test_converter_basic (currency_code : string)
    (kw_as_float kw_suppress_errors : bool) : bool :=
  match _converter currency_code kw_as_float kw_suppress_errors with
  | Ok converter =>
      bool_decide (NBPClient.currencyCode converter = currency_code)
      && bool_decide (as_float converter = kw_as_float)
      && bool_decide (NBPClient.suppressErrors converter = kw_suppress_errors)
  | Raise _ => false
  end.

(** [_prepare_responses]: the transport once the responses are mocked.  For
    each table of the currency the mocked URI answers with [status_code] (and
    [body]); the [responses] library refuses any other request with a
    connection error. *)
Definition _prepare_responses (currency : NBPCurrency) (resource : string)
    (status_code : Z) (body : Body)
    : list string → string → NBPClient.TransportOutcome Body :=
  λ _ url,
    if bool_decide
         (url ∈ (λ table, MockJSONData_uri table currency resource)
                <$> tables currency)
    then NBPClient.Response status_code body
    else NBPClient.ConnectionFailure.

(** The call under test in [test_calls]: the method [call['name']] of the
    converter applied to [call['args']] and [bid_ask], against the mocked
    responses. *)
Definition test_call (converter : NBPClient.Client)
    (transport : list string → string → NBPClient.TransportOutcome Body)
    (cl : call) (bid_ask : bool)
    : M (list string) (NBPClient.FetchResult Rate) :=
  let kind := if bid_ask then NBPClient.BID_ASK else NBPClient.MID_ONLY in
  match call_name cl, call_args cl with
  | m_current, [] =>
      NBPClient.current lower currencies BASE_URI TABLE_MID transport
        parse_single parse_sequence converter kind
  | m_today, [] =>
      NBPClient.today lower currencies BASE_URI TABLE_MID transport
        parse_single parse_sequence converter kind
  | m___call__, [] =>
      NBPClient.__call__ lower currencies BASE_URI TABLE_MID transport
        parse_single parse_sequence converter kind
  | m_date, [d] =>
      NBPClient.date lower currencies BASE_URI TABLE_MID transport
        parse_single parse_sequence converter d kind
  | _, _ => raise TypeError
  end.

(** The attributes [MockJSONData.__init__] assigns. *)
Record MockJSONData := mkMock {
  self_table : string;
  self_currency : NBPCurrency;
  self_uri : string
}.

(** [MockJSONData(table, currency_obj, tail)]. *)
Definition MockJSONData_init (table : string) (currency_obj : NBPCurrency)
    (tail : string) : MockJSONData :=
  mkMock (upper table) currency_obj (MockJSONData_uri table currency_obj tail).

(** The numeric class of the mocked rates, the state of the [random] module,
    [random.randint(a, b)] and [MockJSONData.rate_value], which draws
    [round(random.uniform(0.0, 5.0), 5)]. *)
Context {num Rng : Type}.
Variable randint : Z → Z → Rng → Z * Rng.
Variable rate_value : Rng → num * Rng.

(** [MockJSONData.source_id(self, date)]. *)
Definition source_id (self : MockJSONData) (date : Date) (g : Rng)
    : string * Rng :=
  let '(count, g) := randint 1 365 g in
  (pretty count +:+ "/" +:+ self_table self +:+ "/NBP/"
   +:+ pretty (year date), g).

(** [MockJSONData.rate(self, date)]. *)
Definition rate (self : MockJSONData) (date : Date) (g : Rng)
    : gmap string (value num) * Rng :=
  let '(no, g) := source_id self date g in
  let rate : gmap string (value num) :=
    {[ "no" := VStr no; "effectiveDate" := VStr (isoformat date) ]} in
  if String.eqb (self_table self) "C" then
    let '(bid, g) := rate_value g in
    let '(ask, g) := rate_value g in
    (<["ask" := VNum ask]> (<["bid" := VNum bid]> rate), g)
  else
    let '(mid, g) := rate_value g in
    (<["mid" := VNum mid]> rate, g).

Equations? _date_range (date end_date : Date) : list Date * ending
  by wf (remaining date) lt :=
  _date_range date end_date with date_leb date end_date => {
    | false => ([], StopIteration);
    | true with Logic.inspect (add_day date) => {
        | exist _ (Some date') Hadd =>
            yield date (_date_range date' end_date);
        | exist _ None _ => ([date], OverflowError) } }.
Proof.
  destruct date as [y m d]. revert Hadd. unfold add_day, remaining.
  cbn [year month day].
  assert (days_in_month y m <= 31)%nat
    by (unfold days_in_month; repeat case_match; lia).
  destruct (Nat.ltb_spec d (days_in_month y m));
    [| destruct (Nat.ltb_spec m 12); [| destruct (Nat.ltb_spec y MAXYEAR)]];
    intros [= <-]; cbn [year month day]; lia.
Qed.

(** The dictionary [MockJSONData.data] returns. *)
Record payload := mkPayload {
  payload_table : string;
  payload_currency : string;
  payload_code : string;
  payload_rates : list (gmap string (value num))
}.

(** What a call that consumes a generator of dates does: it returns, or the
    [OverflowError] of the generator passes through it. *)
Inductive outcome (A : Type) : Type :=
  | Returns (a : A)
  | RaisesOverflowError.
Arguments Returns {A} a.
Arguments RaisesOverflowError {A}.

(** [[self.rate(date) for date in dates]]. *)
Fixpoint rates_for (self : MockJSONData) (dates : list Date) (g : Rng)
    : list (gmap string (value num)) * Rng :=
  match dates with
  | [] => ([], g)
  | date :: dates' =>
      let '(r, g) := rate self date g in
      let '(rs, g) := rates_for self dates' g in
      (r :: rs, g)
  end.

(** [MockJSONData.data(self, start_date, end_date=None)], on the dates its
    arguments denote. *)
Definition data (self : MockJSONData) (start_date : Date)
    (end_date : option Date) (g : Rng) : outcome payload * Rng :=
  let end_date := default start_date end_date in
  let '(dates, how) := _date_range start_date end_date in
  let '(rates, g) := rates_for self dates g in
  match how with
  | StopIteration =>
      (Returns (mkPayload (self_table self) (name (self_currency self))
                  (code (self_currency self)) rates), g)
  | OverflowError => (RaisesOverflowError, g)
  end.

End tests.

Arguments Returns {A} a.
Arguments RaisesOverflowError {A}.
Arguments mkPayload {num} payload_table payload_currency payload_code
  payload_rates.
Arguments payload_table {num} p.
Arguments payload_currency {num} p.
Arguments payload_code {num} p.
Arguments payload_rates {num} p.

End TestClient.

(** ** A concrete instance *)

(** Rates as integers (ten-thousandths of a zloty), the registry entries of
    two of the currencies the tests use, bodies already decoded into records
    (effective date, source id, mid). *)
Module Sample.

Definition currencies : gmap string NBPCurrency :=
  {[ "EUR" := mkCurrency "EUR" "euro" ["A"; "C"];
     "HRK" := mkCurrency "HRK" "kuna" ["A"] ]}.

Definition BASE_URI : string := "http://api.nbp.pl/api".

Definition TABLE_MID : string := "A".

Definition Body : Type := list (Date * string * Z).

Definition rate_of (currency_code : string) (record : Date * string * Z)
    : result (gmap string (value Z)) :=
  let '(effectiveDate, no, mid) := record in
  match NBPExchangeRate.construct str_upper currencies currency_code
          (VDate effectiveDate) (VStr no) (VNum mid) ∅ with
  | (Ok _, self) => Ok self
  | (Raise e, _) => Raise e
  end.

Fixpoint rates_of (currency_code : string) (records : Body)
    : result (list (gmap string (value Z))) :=
  match records with
  | [] => Ok []
  | record :: records' =>
      match rate_of currency_code record, rates_of currency_code records' with
      | Ok r, Ok rs => Ok (r :: rs)
      | Raise e, _ => Raise e
      | _, Raise e => Raise e
      end
  end.

Definition parse_single (_ : NBPClient.PrecisionMode) (currency_code : string)
    (body : Body) : result (gmap string (value Z)) :=
  match body with
  | [record] => rate_of currency_code record
  | _ => Raise (APIError None)
  end.

Definition parse_sequence (_ : NBPClient.PrecisionMode)
    (currency_code : string) (body : Body)
    : result (list (gmap string (value Z))) :=
  rates_of currency_code body.

(** Transports: one that answers every request with the same status, one
    that never answers. *)
Definition answering (statusCode : Z) (body : Body)
    : list string → string → NBPClient.TransportOutcome Body :=
  λ _ _, NBPClient.Response statusCode body.

Definition offline : list string → string → NBPClient.TransportOutcome Body :=
  λ _ _, NBPClient.ConnectionFailure.

(** An exchange rate of the bid/ask table and one of the mid-only table. *)
Definition bid_ask : gmap string (value Z) :=
  {[ "bid" := VNum 44000%Z; "ask" := VNum 46000%Z ]}.

Definition eur_rate : gmap string (value Z) :=
  {[ "_currency_code" := VStr "EUR"; "date" := VDate (mkDate 2020 1 2);
     "source_id" := VStr "001/C/NBP/2020"; "mid" := VNum 45000%Z;
     "bid" := VNum 44000%Z; "ask" := VNum 46000%Z ]}.

Definition eur_mid_rate : gmap string (value Z) :=
  {[ "_currency_code" := VStr "EUR"; "date" := VDate (mkDate 2020 1 2);
     "source_id" := VStr "001/A/NBP/2020"; "mid" := VNum 45000%Z ]}.

Definition hrk_rate : gmap string (value Z) :=
  {[ "_currency_code" := VStr "HRK"; "date" := VDate (mkDate 2020 1 2);
     "source_id" := VStr "001/A/NBP/2020"; "mid" := VNum 5900%Z ]}.

Definition eur (suppress : bool) : NBPClient.Client :=
  NBPClient.mkClient "EUR" NBPClient.EXACT suppress.

Definition hrk (suppress : bool) : NBPClient.Client :=
  NBPClient.mkClient "HRK" NBPClient.EXACT suppress.

Definition fetch (transport : list string → string → NBPClient.TransportOutcome Body) :=
  NBPClient.fetch str_lower currencies BASE_URI TABLE_MID transport
    parse_single parse_sequence.

(** [str] on the values of the instance, with a rate shown as its integer. *)
Definition py_str (v : value Z) : string :=
  match v with
  | VNone => "None"
  | VStr s => s
  | VDate d => isoformat d
  | VNum x => pretty x
  end.

(** A source of random numbers: a counter, from which [randint] and
    [rate_value] take their next number. *)
Definition randint (a b : Z) (g : nat) : Z * nat :=
  ((a + Z.of_nat g `mod` (b - a + 1))%Z, S g).

Definition rate_value (g : nat) : Z * nat := (Z.of_nat (1000 * S g), S g).

(** The mocks of the mid-only and of the bid/ask table of the euro for the
    resource of [today]. *)
Definition eur_entry : NBPCurrency := mkCurrency "EUR" "euro" ["A"; "C"].

Definition mock_a : TestClient.MockJSONData :=
  TestClient.MockJSONData_init BASE_URI str_upper str_lower "a" eur_entry
    "today".

Definition mock_c : TestClient.MockJSONData :=
  TestClient.MockJSONData_init BASE_URI str_upper str_lower "c" eur_entry
    "today".

End Sample.


(** * Properties *)

(** ** The exchange rate *)

Section exchange_rate_properties.

Context {num : Type}.
Variable mul : num → num → num.
Variable upper : string → string.
Variable currencies : gmap string NBPCurrency.

Import NBPExchangeRate.

Abbreviation obj := (gmap string (value num)).
Abbreviation __init__ := (NBPExchangeRate.__init__ upper currencies).
Abbreviation construct := (NBPExchangeRate.construct upper currencies).
Abbreviation __call__ := (NBPExchangeRate.__call__ mul).
Abbreviation __mul__ := (NBPExchangeRate.__mul__ mul).
Abbreviation __rmul__ := (NBPExchangeRate.__rmul__ mul).

(** The four attributes every successful [__init__] assigns. *)
Abbreviation assigned code date source_id mid self :=
  (<["mid" := mid]> (<["source_id" := source_id]> (<["date" := date]>
     (<["_currency_code" := VStr (upper code)]> (self : obj))))).

Ltac run := unfold NBPExchangeRate.__call__, NBPExchangeRate.__init__,
  set_currency_code, try_except, py_mul, getattr, setattr, raise,
  mbind, M_bind, mret, M_ret; simpl.

Lemma getattr_present (self : obj) attr v :
  self !! attr = Some v → getattr attr self = (Ok v, self).
Proof. intros H. unfold getattr. by rewrite H. Qed.

Lemma getattr_absent (self : obj) attr :
  self !! attr = None → getattr attr self = (Raise (AttributeError attr), self).
Proof. intros H. unfold getattr. by rewrite H. Qed.

Lemma init_unknown code date source_id mid kwargs (self : obj) :
  currencies !! upper code = None →
  __init__ code date source_id mid kwargs self
  = (Raise (UnknownCurrencyCode (upper code)), self).
Proof.
  intros H. run.
  rewrite bool_decide_true; [done |]. by apply not_elem_of_dom.
Qed.

Lemma init_known code date source_id mid kwargs (self : obj) :
  is_Some (currencies !! upper code) →
  __init__ code date source_id mid kwargs self
  = (Ok tt,
     if bool_decide ("bid" ∈ dom kwargs) && bool_decide ("ask" ∈ dom kwargs)
     then <["ask" := kwargs_get kwargs "ask"]>
            (<["bid" := kwargs_get kwargs "bid"]>
               (assigned code date source_id mid self))
     else assigned code date source_id mid self).
Proof.
  intros H. run.
  rewrite bool_decide_false; [| intros Hn; by apply not_elem_of_dom in Hn; destruct H; congruence].
  simpl. by destruct (_ && _).
Qed.

Lemma call_bid_ask (self : obj) a bid ask mid :
  self !! "bid" = Some (VNum bid) →
  self !! "ask" = Some (VNum ask) →
  self !! "mid" = Some (VNum mid) →
  __call__ a self
  = (Ok {[ "bid" := VNum (mul bid a); "ask" := VNum (mul ask a);
           "mid" := VNum (mul mid a) ]}, self).
Proof. intros Hb Ha Hm. run. rewrite Hb. simpl. rewrite Ha. simpl. by rewrite Hm. Qed.

Lemma call_no_bid (self : obj) a mid :
  self !! "bid" = None →
  self !! "mid" = Some (VNum mid) →
  __call__ a self = (Ok {[ "mid" := VNum (mul mid a) ]}, self).
Proof. intros Hb Hm. run. rewrite Hb. simpl. by rewrite Hm. Qed.

Lemma call_no_ask (self : obj) a bid mid :
  self !! "bid" = Some (VNum bid) →
  self !! "ask" = None →
  self !! "mid" = Some (VNum mid) →
  __call__ a self = (Ok {[ "mid" := VNum (mul mid a) ]}, self).
Proof. intros Hb Ha Hm. run. rewrite Hb. simpl. rewrite Ha. simpl. by rewrite Hm. Qed.

(** What a successful construction leaves in the dictionary. *)
Lemma constructed_dict code date source_id mid kwargs (self : obj) :
  construct code date source_id mid kwargs = (Ok tt, self) →
  is_Some (currencies !! upper code)
  ∧ self
    = if bool_decide ("bid" ∈ dom kwargs) && bool_decide ("ask" ∈ dom kwargs)
      then <["ask" := kwargs_get kwargs "ask"]>
             (<["bid" := kwargs_get kwargs "bid"]>
                (assigned code date source_id mid ∅))
      else assigned code date source_id mid ∅.
Proof.
  unfold NBPExchangeRate.construct. intros H.
  destruct (currencies !! upper code) as [c |] eqn:Hc.
  - split; [by eexists |].
    rewrite init_known in H by (by rewrite Hc). congruence.
  - by rewrite init_unknown in H.
Qed.

Lemma constructed_mid code date source_id mid kwargs (self : obj) :
  construct code date source_id mid kwargs = (Ok tt, self) →
  self !! "mid" = Some mid.
Proof.
  intros [_ ->]%constructed_dict. by destruct (_ && _); simplify_map_eq.
Qed.

Lemma constructed_bid_ask code date source_id mid kwargs (self : obj) :
  construct code date source_id mid kwargs = (Ok tt, self) →
  (is_Some (kwargs !! "bid") ∧ is_Some (kwargs !! "ask")
   ∧ self !! "bid" = kwargs !! "bid" ∧ self !! "ask" = kwargs !! "ask")
  ∨ ((kwargs !! "bid" = None ∨ kwargs !! "ask" = None)
     ∧ self !! "bid" = None ∧ self !! "ask" = None
     ∧ self = assigned code date source_id mid ∅).
Proof.
  intros [_ ->]%constructed_dict. unfold kwargs_get.
  destruct (kwargs !! "bid") as [b |] eqn:Hb;
    destruct (kwargs !! "ask") as [k |] eqn:Hk.
  - left. rewrite !bool_decide_true by (apply elem_of_dom; by eexists).
    simpl. by simplify_map_eq.
  - right. rewrite (bool_decide_false ("ask" ∈ _)) by (by apply not_elem_of_dom).
    rewrite andb_false_r. by simplify_map_eq; auto.
  - right. rewrite (bool_decide_false ("bid" ∈ _)) by (by apply not_elem_of_dom).
    simpl. by simplify_map_eq; auto.
  - right. rewrite (bool_decide_false ("bid" ∈ _)) by (by apply not_elem_of_dom).
    simpl. by simplify_map_eq; auto.
Qed.

(** C1: on a constructed exchange rate whose rates are numbers, [scale(a)]
    (the call of the object) returns exactly the dictionary with [bid*a],
    [ask*a] and [mid*a] when [bid] and [ask] are present, exactly the
    dictionary with [mid*a] when they are absent, and in both cases leaves
    the receiver's dictionary as it was; [bid] and [ask] are present
    together or absent together, so the two cases are all there are. *)
Theorem scale_is_pure code date source_id mid kwargs (self : obj) a :
  construct code date source_id (VNum mid) kwargs = (Ok tt, self) →
  self !! "mid" = Some (VNum mid)
  ∧ (∀ bid ask,
       self !! "bid" = Some (VNum bid) → self !! "ask" = Some (VNum ask) →
       __call__ a self
       = (Ok {[ "bid" := VNum (mul bid a); "ask" := VNum (mul ask a);
                "mid" := VNum (mul mid a) ]}, self))
  ∧ (self !! "bid" = None → self !! "ask" = None →
       __call__ a self = (Ok {[ "mid" := VNum (mul mid a) ]}, self))
  ∧ (is_Some (self !! "bid") ↔ is_Some (self !! "ask")).
Proof.
  intros H. pose proof (constructed_mid _ _ _ _ _ _ H) as Hm.
  split; [done |]. split; [| split].
  - intros bid ask Hb Ha. by apply call_bid_ask.
  - intros Hb _. by apply call_no_bid.
  - destruct (constructed_bid_ask _ _ _ _ _ _ H)
      as [(Hb & Ha & -> & ->) | (_ & -> & -> & _)]; [done |].
    split; intros [? [=]].
Qed.

(** C3: an exchange rate constructed without [bid] and [ask] has no entry
    for either in its dictionary (no entry at all, rather than an entry
    holding [None] or zero), so reading them raises [AttributeError]; an
    entry for [bid] or [ask] exists only when both were supplied, and then
    holds what was supplied. *)
Theorem mid_only_has_no_bid_ask code date source_id mid kwargs (self : obj) :
  construct code date source_id mid kwargs = (Ok tt, self) →
  (kwargs !! "bid" = None → kwargs !! "ask" = None →
     self !! "bid" = None ∧ self !! "ask" = None
     ∧ getattr "bid" self = (Raise (AttributeError "bid"), self)
     ∧ getattr "ask" self = (Raise (AttributeError "ask"), self))
  ∧ (is_Some (self !! "bid") ∨ is_Some (self !! "ask") →
     is_Some (kwargs !! "bid") ∧ is_Some (kwargs !! "ask")
     ∧ self !! "bid" = kwargs !! "bid" ∧ self !! "ask" = kwargs !! "ask").
Proof.
  intros H. destruct (constructed_bid_ask _ _ _ _ _ _ H)
    as [(Hb & Ha & Hsb & Hsa) | (Hk & Hsb & Hsa & _)].
  - split.
    + intros Hnb _. rewrite Hnb in Hb. by destruct Hb.
    + done.
  - split.
    + intros _ _. by rewrite !getattr_absent.
    + rewrite Hsb, Hsa. intros [[? ?] | [? ?]]; done.
Qed.

(** C9: with a known currency code and exactly one of [bid] and [ask]
    supplied, construction succeeds and ignores the supplied value: the
    object is the one constructed with neither, it has no entry for [bid] or
    [ask], and scaling it returns only [mid*a]. *)
Theorem partial_bid_ask_is_ignored code date source_id mid kwargs :
  is_Some (currencies !! upper code) →
  (is_Some (kwargs !! "bid") ∧ kwargs !! "ask" = None)
  ∨ (kwargs !! "bid" = None ∧ is_Some (kwargs !! "ask")) →
  ∃ self : obj,
    construct code date source_id mid kwargs = (Ok tt, self)
    ∧ construct code date source_id mid ∅ = (Ok tt, self)
    ∧ self !! "bid" = None ∧ self !! "ask" = None
    ∧ ∀ m a, mid = VNum m →
        __call__ a self = (Ok {[ "mid" := VNum (mul m a) ]}, self).
Proof.
  intros Hc Hk. unfold NBPExchangeRate.construct.
  rewrite !init_known by done.
  assert (bool_decide ("bid" ∈ dom kwargs) && bool_decide ("ask" ∈ dom kwargs)
          = false) as ->.
  { destruct Hk as [[_ Hk] | [Hk _]].
    - rewrite (bool_decide_false ("ask" ∈ _)) by (by apply not_elem_of_dom).
      apply andb_false_r.
    - by rewrite (bool_decide_false ("bid" ∈ _)) by (by apply not_elem_of_dom). }
  eexists. split; [done |]. split; [done |].
  split; [by simplify_map_eq |]. split; [by simplify_map_eq |].
  intros m a ->. apply call_no_bid; by simplify_map_eq.
Qed.

(** C10: for every exchange rate and every amount, [r * a] ([__mul__]) and
    [a * r] ([__rmul__]) do what [r(a)] ([__call__]) does: the same result
    and the same dictionary afterwards. *)
Theorem multiplication_is_scaling a (self : obj) :
  __mul__ a self = __call__ a self ∧ __rmul__ a self = __call__ a self.
Proof. split; reflexivity. Qed.

(** C2: when the upper-cased code has no entry in the registry, [__init__]
    raises [UnknownCurrencyCode] with the receiver's dictionary untouched,
    and so does the construction of a client; when it has one, construction
    succeeds and the stored currency code is the upper-cased code. *)
Theorem unknown_code_is_rejected code :
  (currencies !! upper code = None →
     (∀ date source_id mid kwargs (self : obj),
        __init__ code date source_id mid kwargs self
        = (Raise (UnknownCurrencyCode (upper code)), self))
     ∧ (∀ precision suppress,
        NBPClient.construct upper currencies code precision suppress
        = Raise (UnknownCurrencyCode (upper code))))
  ∧ (is_Some (currencies !! upper code) →
     (∀ date source_id mid kwargs, ∃ self : obj,
        construct code date source_id mid kwargs = (Ok tt, self)
        ∧ currency_code self = (Ok (VStr (upper code)), self))
     ∧ (∀ precision suppress,
        NBPClient.construct upper currencies code precision suppress
        = Ok (NBPClient.mkClient (upper code) precision suppress))).
Proof.
  split.
  - intros Hc. split.
    + intros. by apply init_unknown.
    + intros. unfold NBPClient.construct.
      rewrite bool_decide_true; [done |]. by apply not_elem_of_dom.
  - intros Hc. split.
    + intros. unfold NBPExchangeRate.construct. rewrite init_known by done.
      eexists. split; [done |]. unfold currency_code.
      apply getattr_present. by destruct (_ && _); simplify_map_eq.
    + intros. unfold NBPClient.construct.
      rewrite bool_decide_false; [done |].
      intros Hn. apply not_elem_of_dom in Hn. destruct Hc. congruence.
Qed.

End exchange_rate_properties.

(** ** The client *)

Section client_properties.

Context {Body Rate : Type}.
Variable lower : string → string.
Variable currencies : gmap string NBPCurrency.
Variable BASE_URI TABLE_MID : string.
Variable transport : list string → string → NBPClient.TransportOutcome Body.
Variable parse_single : NBPClient.PrecisionMode → string → Body → result Rate.
Variable parse_sequence :
  NBPClient.PrecisionMode → string → Body → result (list Rate).

Import NBPClient.

Abbreviation publishes_bid_ask := (NBPClient.publishes_bid_ask currencies).
Abbreviation locator := (NBPClient.locator lower BASE_URI TABLE_MID).
Abbreviation fetch_steps :=
  (NBPClient.fetch_steps lower currencies BASE_URI TABLE_MID transport
     parse_single parse_sequence).
Abbreviation fetch :=
  (NBPClient.fetch lower currencies BASE_URI TABLE_MID transport
     parse_single parse_sequence).
Abbreviation current :=
  (NBPClient.current lower currencies BASE_URI TABLE_MID transport
     parse_single parse_sequence).
Abbreviation today :=
  (NBPClient.today lower currencies BASE_URI TABLE_MID transport
     parse_single parse_sequence).
Abbreviation date :=
  (NBPClient.date lower currencies BASE_URI TABLE_MID transport
     parse_single parse_sequence).
Abbreviation range :=
  (NBPClient.range lower currencies BASE_URI TABLE_MID transport
     parse_single parse_sequence).
Abbreviation __call__ :=
  (NBPClient.__call__ lower currencies BASE_URI TABLE_MID transport
     parse_single parse_sequence).

Ltac run := unfold NBPClient.fetch, NBPClient.fetch_steps, NBPClient.suppress,
  NBPClient.validate, NBPClient.get, NBPClient.lift, try_except, raise,
  mbind, M_bind, mret, M_ret; simpl.

Lemma not_published c currency :
  currencies !! currencyCode c = Some currency →
  TABLE_BID_ASK ∉ tables currency →
  publishes_bid_ask c = false.
Proof.
  intros Hc Ht. unfold NBPClient.publishes_bid_ask. rewrite Hc.
  by apply bool_decide_false.
Qed.

(** Step 1 stops a bid/ask request for a currency outside the bid/ask table
    without a request being sent. *)
Lemma fetch_steps_unavailable c shape sent :
  publishes_bid_ask c = false →
  fetch_steps c shape BID_ASK sent = (Raise BidAskUnavailable, sent).
Proof. intros H. run. by rewrite H. Qed.

(** Past step 1, exactly one request is sent and its outcome decides. *)
Lemma fetch_steps_sends c shape kind sent :
  (kind = BID_ASK → publishes_bid_ask c = true) →
  fetch_steps c shape kind sent
  = match transport sent (locator c shape kind) with
    | ConnectionFailure =>
        (Raise (APIError None), sent ++ [locator c shape kind])%list
    | Response statusCode body =>
        if is_success statusCode then
          match shape with
          | RANGE _ _ =>
              match parse_sequence (precisionMode c) (currencyCode c) body with
              | Ok rates => (Ok (Sequence rates), sent ++ [locator c shape kind])%list
              | Raise e => (Raise e, sent ++ [locator c shape kind])%list
              end
          | _ =>
              match parse_single (precisionMode c) (currencyCode c) body with
              | Ok rate => (Ok (Single rate), sent ++ [locator c shape kind])%list
              | Raise e => (Raise e, sent ++ [locator c shape kind])%list
              end
          end
        else (Raise (APIError (Some statusCode)), sent ++ [locator c shape kind])%list
    end.
Proof.
  intros H.
  assert (∀ k, k = kind → (k = BID_ASK → publishes_bid_ask c = true)) as Hk
    by (by intros k ->).
  run. destruct kind; [| rewrite (Hk BID_ASK) by done]; simpl.
  all: destruct (transport _ _) as [s b |]; [| done].
  all: destruct (is_success s); [| done].
  all: destruct shape; simpl;
    first [ by destruct (parse_single _ _ _) | by destruct (parse_sequence _ _ _) ].
Qed.

(** Past step 1 the record of requests gains the locator of the call. *)
Lemma fetch_steps_sends_one c shape kind sent :
  (kind = BID_ASK → publishes_bid_ask c = true) →
  (fetch_steps c shape kind sent).2 = (sent ++ [locator c shape kind])%list.
Proof.
  intros H. rewrite fetch_steps_sends by done.
  destruct (transport _ _) as [s b |]; [| done].
  destruct (is_success s); [| done].
  destruct shape; simpl;
    first [ by destruct (parse_single _ _ _) | by destruct (parse_sequence _ _ _) ].
Qed.

(** A call sends no request or one: the record of requests is left as it
    was or gains the locator of the call. *)
Lemma fetch_steps_sent c shape kind sent :
  (fetch_steps c shape kind sent).2 = sent
  ∨ (fetch_steps c shape kind sent).2 = (sent ++ [locator c shape kind])%list.
Proof.
  destruct kind; [right; by apply fetch_steps_sends_one |].
  destruct (publishes_bid_ask c) eqn:Hp.
  - right. by apply fetch_steps_sends_one.
  - left. by rewrite fetch_steps_unavailable.
Qed.

(** [fetch] on a request that passes validation. *)
Lemma fetch_valid c shape kind sent :
  validate shape sent = (Ok tt, sent) →
  fetch c shape kind sent
  = match fetch_steps c shape kind sent with
    | (Ok r, sent') => (Ok r, sent')
    | (Raise e, sent') =>
        (if suppressErrors c then Ok Absent else Raise e, sent')
    end.
Proof.
  intros H. unfold NBPClient.fetch, NBPClient.suppress, mbind, M_bind.
  rewrite H. destruct (suppressErrors c); unfold try_except; simpl.
  - by destruct (fetch_steps _ _ _ _) as [[r | e] sent'].
  - by destruct (fetch_steps _ _ _ _) as [[r | e] sent'].
Qed.

(** Validation passes, or stops the call before anything else. *)
Lemma validate_cases shape sent :
  validate shape sent = (Ok tt, sent)
  ∨ ∀ c kind, fetch c shape kind sent = (Raise ValidationError, sent).
Proof.
  destruct shape; try (by left). run.
  destruct (date_leb _ _); [by left | by right].
Qed.

(** C4: for a client whose currency is outside the bid/ask table, each of
    [current], [today], [date] and the direct invocation, asked for bid/ask,
    raises [BidAskUnavailable], or returns the absence value under
    [suppressErrors], and sends no request: the record of requests is
    unchanged, whatever the transport would have answered. *)
Theorem bid_ask_unavailable_precedes_transport c currency sent :
  currencies !! currencyCode c = Some currency →
  TABLE_BID_ASK ∉ tables currency →
  current c BID_ASK sent
  = (if suppressErrors c then Ok Absent else Raise BidAskUnavailable, sent)
  ∧ today c BID_ASK sent
    = (if suppressErrors c then Ok Absent else Raise BidAskUnavailable, sent)
  ∧ (∀ d, date c d BID_ASK sent
          = (if suppressErrors c then Ok Absent else Raise BidAskUnavailable,
             sent))
  ∧ __call__ c BID_ASK sent
    = (if suppressErrors c then Ok Absent else Raise BidAskUnavailable, sent).
Proof.
  intros Hc Ht. pose proof (not_published _ _ Hc Ht) as Hp.
  unfold NBPClient.current, NBPClient.today, NBPClient.date, NBPClient.__call__.
  repeat split; intros; rewrite fetch_valid by done;
    by rewrite fetch_steps_unavailable.
Qed.

(** C5: when steps 1 to 5 of a valid request fail with an exception, the
    call returns the absence value under [suppressErrors], which is neither
    an empty sequence nor a rate, and raises that same exception otherwise;
    the requests sent are those of the failed steps. *)
Theorem failure_is_suppressed_or_raised c shape kind sent e sent' :
  validate shape sent = (Ok tt, sent) →
  fetch_steps c shape kind sent = (Raise e, sent') →
  fetch c shape kind sent
  = (if suppressErrors c then Ok Absent else Raise e, sent')
  ∧ Absent ≠ Sequence ([] : list Rate)
  ∧ ∀ rate : Rate, Absent ≠ Single rate.
Proof.
  intros Hv He. rewrite fetch_valid by done. rewrite He. done.
Qed.

(** C6: on a valid request that passes the bid/ask check, when the transport
    answers with a status outside 2xx or does not answer, [fetch] raises
    [APIError] with the status observed (none for a connection failure), or
    returns the absence value under [suppressErrors]; exactly one request
    was sent, and no rate is returned. *)
Theorem transport_failure_is_APIError c shape kind sent status :
  validate shape sent = (Ok tt, sent) →
  (kind = BID_ASK → publishes_bid_ask c = true) →
  (transport sent (locator c shape kind) = ConnectionFailure ∧ status = None)
  ∨ (∃ statusCode body,
       transport sent (locator c shape kind) = Response statusCode body
       ∧ is_success statusCode = false ∧ status = Some statusCode) →
  fetch c shape kind sent
  = (if suppressErrors c then Ok Absent else Raise (APIError status),
     (sent ++ [locator c shape kind])%list).
Proof.
  intros Hv Hk Ht. rewrite fetch_valid by done.
  rewrite fetch_steps_sends by done.
  destruct Ht as [[-> ->] | (s & b & -> & Hs & ->)]; [done |].
  by rewrite Hs.
Qed.

(** C7: a range whose start is after its end (that is, not [start <= end])
    fails with the validation error, and no request is sent. *)
Theorem inverted_range_is_rejected c start end_ kind sent :
  date_leb start end_ = false →
  range c start end_ kind sent = (Raise ValidationError, sent).
Proof.
  intros H. unfold NBPClient.range. run. by rewrite H.
Qed.

(** C8: when [fetch] sends a request, the locator sent is
    [<base>/exchangerates/rates/<table>/<currency code>/<tail>] with the
    currency code in lower case and the tail empty for [CURRENT], "today"
    for [TODAY], the ISO date for [ON_DATE] and [<start>/<end>] for [RANGE];
    a direct invocation of the client is the request of [current]. *)
Theorem locator_shape c shape kind sent r sent' :
  fetch c shape kind sent = (r, sent') →
  sent' ≠ sent →
  (∃ tl,
     sent' = (sent ++ [BASE_URI +:+ "/exchangerates/rates/"
                       +:+ lower (target_table TABLE_MID kind) +:+ "/"
                       +:+ lower (currencyCode c) +:+ "/" +:+ tl])%list
     ∧ match shape with
       | CURRENT => tl = ""
       | TODAY => tl = "today"
       | ON_DATE d => tl = isoformat d
       | RANGE start end_ => tl = isoformat start +:+ "/" +:+ isoformat end_
       end)
  ∧ __call__ c kind = current c kind.
Proof.
  intros Hf Hs. split; [| done].
  exists (tail shape). split; [| by destruct shape].
  destruct (validate_cases shape sent) as [Hv | Hv].
  - rewrite fetch_valid in Hf by done.
    destruct (fetch_steps_sent c shape kind sent) as [Hl | Hl];
      destruct (fetch_steps c shape kind sent) as [[r' | e'] sent1];
      simpl in Hl; subst sent1; by injection Hf as <- <-.
  - rewrite Hv in Hf. by injection Hf as <- <-.
Qed.

End client_properties.

(** ** The client against the expectations of the tests *)

Section test_properties.

Context {Body Rate : Type}.
Variable BASE_URI : string.
Variable upper lower : string → string.
Variable currencies : gmap string NBPCurrency.
Variable TABLE_MID : string.
Variable parse_single : NBPClient.PrecisionMode → string → Body → result Rate.
Variable parse_sequence :
  NBPClient.PrecisionMode → string → Body → result (list Rate).

Import NBPClient TestClient.

Abbreviation test_call :=
  (TestClient.test_call BASE_URI lower currencies TABLE_MID parse_single
     parse_sequence).
Abbreviation _prepare_responses :=
  (TestClient._prepare_responses (Body:=Body) BASE_URI upper lower).

(** [test_converter_basic] passes on the constructor of the specification
    for a code of the registry written in upper case, as the codes of the
    tests are. *)
Lemma converter_basic_passes currency_code kw_as_float kw_suppress_errors :
  is_Some (currencies !! currency_code) →
  upper currency_code = currency_code →
  TestClient.test_converter_basic upper currencies currency_code kw_as_float
    kw_suppress_errors = true.
Proof.
  intros Hc Hu.
  unfold test_converter_basic, _converter, NBPClient.construct.
  rewrite Hu. rewrite bool_decide_false; last first.
  { intros Hn. apply not_elem_of_dom in Hn. destruct Hc. congruence. }
  unfold as_float. simpl.
  rewrite !bool_decide_true; by destruct kw_as_float.
Qed.

(** Every call of [calls_to_test] is [fetch] on a shape without a range. *)
Lemma test_call_is_fetch converter transport date cl bid_ask :
  cl ∈ calls_to_test date →
  ∃ shape,
    test_call converter transport cl bid_ask
    = NBPClient.fetch lower currencies BASE_URI TABLE_MID transport
        parse_single parse_sequence converter shape
        (if bid_ask then BID_ASK else MID_ONLY)
    ∧ ∀ sent, validate shape sent = (Ok tt, sent).
Proof.
  unfold calls_to_test. rewrite !elem_of_cons, elem_of_nil.
  intros [-> | [-> | [-> | [-> | []]]]].
  - by exists CURRENT.
  - by exists TODAY.
  - by exists CURRENT.
  - by exists (ON_DATE date).
Qed.

(** The error subtests of [test_calls] pass on the client of the
    specification: where the test expects an exception class, the call
    raises an exception of that class, or returns the absence value when the
    converter suppresses errors. *)
Lemma error_subtests_pass converter currency bid_ask status_code body date cl
    cls sent :
  currencies !! currencyCode converter = Some currency →
  cl ∈ calls_to_test date →
  is_success status_code = false ∨ bid_ask_should_fail bid_ask currency = true →
  expected_exception bid_ask status_code currency = Some cls →
  _test_converter_error is_Absent (suppressErrors converter) cls
    (test_call converter
       (_prepare_responses currency (call_resource cl) status_code body)
       cl bid_ask sent).1
  = true.
Proof.
  intros Hc Hcl Hs Hcls.
  destruct (test_call_is_fetch converter
              (_prepare_responses currency (call_resource cl) status_code body)
              date cl bid_ask Hcl) as (shape & -> & Hv).
  rewrite fetch_valid by done.
  destruct (bid_ask_should_fail bid_ask currency) eqn:Hfail.
  - (* the bid/ask call has to fail *)
    apply andb_prop in Hfail as [-> Ht%Is_true_eq_left%bool_decide_unpack].
    rewrite fetch_steps_unavailable by (by eapply not_published).
    revert Hcls. unfold expected_exception, bid_ask_should_fail. simpl.
    rewrite !(bool_decide_true ("C" ∉ _)) by done.
    unfold _test_converter_error.
    destruct (bool_decide _), (suppressErrors converter); by intros [= <-].
  - (* a status that is not a success *)
    destruct Hs as [Hs | ?]; [| done].
    assert (status_code ≠ 200%Z) as Hne by (by intros ->).
    revert Hcls. unfold expected_exception. rewrite Hfail.
    rewrite bool_decide_true by done. intros [= <-].
    rewrite fetch_steps_sends; last first.
    { intros Hk. destruct bid_ask; [| done].
      unfold NBPClient.publishes_bid_ask. rewrite Hc. apply bool_decide_true.
      unfold bid_ask_should_fail in Hfail. simpl in Hfail.
      apply bool_decide_eq_false in Hfail. by apply dec_stable. }
    unfold TestClient._prepare_responses, _test_converter_error.
    case_bool_decide; [rewrite Hs |]; by destruct (suppressErrors converter).
Qed.

End test_properties.

(** ** The properties on the concrete instance *)

Lemma scale_is_pure_witness :
  NBPExchangeRate.construct str_upper Sample.currencies "eur"
    (VDate (mkDate 2020 1 2)) (VStr "001/C/NBP/2020") (VNum 45000%Z)
    Sample.bid_ask = (Ok tt, Sample.eur_rate)
  ∧ NBPExchangeRate.__call__ Z.mul 10%Z Sample.eur_rate
    = (Ok {[ "bid" := VNum 440000%Z; "ask" := VNum 460000%Z;
             "mid" := VNum 450000%Z ]}, Sample.eur_rate).
Proof.
  assert (NBPExchangeRate.construct str_upper Sample.currencies "eur"
    (VDate (mkDate 2020 1 2)) (VStr "001/C/NBP/2020") (VNum 45000%Z)
    Sample.bid_ask = (Ok tt, Sample.eur_rate)) as H by (vm_compute; reflexivity).
  split; [exact H |].
  apply (proj1 (proj2 (scale_is_pure Z.mul str_upper Sample.currencies
           _ _ _ _ _ _ 10%Z H)) 44000%Z 46000%Z); reflexivity.
Defined.

Lemma unknown_code_is_rejected_witness :
  NBPExchangeRate.__init__ str_upper Sample.currencies "xyz"
    (VDate (mkDate 2020 1 2)) (VStr "001/A/NBP/2020") (VNum 5900%Z) ∅
    Sample.hrk_rate
  = (Raise (UnknownCurrencyCode "XYZ"), Sample.hrk_rate)
  ∧ NBPClient.construct str_upper Sample.currencies "hrk" NBPClient.EXACT false
    = Ok (Sample.hrk false).
Proof.
  split.
  - apply (proj1 (proj1 (unknown_code_is_rejected (num:=Z) str_upper
                           Sample.currencies "xyz") eq_refl)).
  - apply (proj2 (proj2 (unknown_code_is_rejected (num:=Z) str_upper
                           Sample.currencies "hrk")
                    (ex_intro _ (mkCurrency "HRK" "kuna" ["A"]) eq_refl))).
Defined.

Lemma mid_only_has_no_bid_ask_witness :
  Sample.hrk_rate !! "bid" = None
  ∧ NBPExchangeRate.getattr "ask" Sample.hrk_rate
    = (Raise (AttributeError "ask"), Sample.hrk_rate).
Proof.
  assert (NBPExchangeRate.construct str_upper Sample.currencies "hrk"
    (VDate (mkDate 2020 1 2)) (VStr "001/A/NBP/2020") (VNum 5900%Z) ∅
    = (Ok tt, Sample.hrk_rate)) as H by (vm_compute; reflexivity).
  destruct (proj1 (mid_only_has_no_bid_ask str_upper Sample.currencies
                     _ _ _ _ _ _ H) eq_refl eq_refl) as (Hb & _ & _ & Ha).
  split; [exact Hb | exact Ha].
Defined.

Lemma partial_bid_ask_is_ignored_witness :
  ∃ self : gmap string (value Z),
    NBPExchangeRate.construct str_upper Sample.currencies "hrk"
      (VDate (mkDate 2020 1 2)) (VStr "001/A/NBP/2020") (VNum 5900%Z)
      {[ "bid" := VNum 5800%Z ]} = (Ok tt, self)
    ∧ NBPExchangeRate.construct str_upper Sample.currencies "hrk"
        (VDate (mkDate 2020 1 2)) (VStr "001/A/NBP/2020") (VNum 5900%Z) ∅
      = (Ok tt, self)
    ∧ self !! "bid" = None ∧ self !! "ask" = None
    ∧ ∀ m a, VNum 5900%Z = VNum m →
        NBPExchangeRate.__call__ Z.mul a self
        = (Ok {[ "mid" := VNum (m * a)%Z ]}, self).
Proof.
  apply (partial_bid_ask_is_ignored Z.mul str_upper Sample.currencies "hrk").
  - exists (mkCurrency "HRK" "kuna" ["A"]). reflexivity.
  - left. split; [exists (VNum 5800%Z) |]; reflexivity.
Defined.

Lemma bid_ask_unavailable_precedes_transport_witness :
  Sample.fetch (Sample.answering 404 []) (Sample.hrk false)
    NBPClient.CURRENT NBPClient.BID_ASK []
  = (Raise BidAskUnavailable, [])
  ∧ Sample.fetch (Sample.answering 404 []) (Sample.hrk true)
      (NBPClient.ON_DATE (mkDate 2020 1 1)) NBPClient.BID_ASK []
    = (Ok NBPClient.Absent, []).
Proof.
  assert (NBPClient.TABLE_BID_ASK ∉ ["A"]) as Ht
    by (refine (bool_decide_unpack _ _); vm_compute; exact I).
  split.
  - apply (proj1 (bid_ask_unavailable_precedes_transport str_lower
             Sample.currencies Sample.BASE_URI Sample.TABLE_MID
             (Sample.answering 404 []) Sample.parse_single
             Sample.parse_sequence (Sample.hrk false)
             (mkCurrency "HRK" "kuna" ["A"]) [] eq_refl
             Ht)).
  - exact (proj1 (proj2 (proj2 (bid_ask_unavailable_precedes_transport
             str_lower Sample.currencies Sample.BASE_URI Sample.TABLE_MID
             (Sample.answering 404 []) Sample.parse_single
             Sample.parse_sequence (Sample.hrk true)
             (mkCurrency "HRK" "kuna" ["A"]) [] eq_refl
             Ht))) (mkDate 2020 1 1)).
Defined.

Lemma failure_is_suppressed_or_raised_witness :
  Sample.fetch (Sample.answering 404 []) (Sample.hrk true)
    (NBPClient.ON_DATE (mkDate 2020 1 1)) NBPClient.MID_ONLY []
  = (Ok NBPClient.Absent,
     ["http://api.nbp.pl/api/exchangerates/rates/a/hrk/2020-01-01"])
  ∧ Sample.fetch (Sample.answering 404 []) (Sample.hrk false)
      (NBPClient.ON_DATE (mkDate 2020 1 1)) NBPClient.MID_ONLY []
    = (Raise (APIError (Some 404%Z)),
       ["http://api.nbp.pl/api/exchangerates/rates/a/hrk/2020-01-01"]).
Proof.
  split.
  - apply (proj1 (failure_is_suppressed_or_raised str_lower Sample.currencies
             Sample.BASE_URI Sample.TABLE_MID (Sample.answering 404 [])
             Sample.parse_single Sample.parse_sequence (Sample.hrk true)
             (NBPClient.ON_DATE (mkDate 2020 1 1)) NBPClient.MID_ONLY []
             (APIError (Some 404%Z))
             ["http://api.nbp.pl/api/exchangerates/rates/a/hrk/2020-01-01"]
             eq_refl eq_refl)).
  - apply (proj1 (failure_is_suppressed_or_raised str_lower Sample.currencies
             Sample.BASE_URI Sample.TABLE_MID (Sample.answering 404 [])
             Sample.parse_single Sample.parse_sequence (Sample.hrk false)
             (NBPClient.ON_DATE (mkDate 2020 1 1)) NBPClient.MID_ONLY []
             (APIError (Some 404%Z))
             ["http://api.nbp.pl/api/exchangerates/rates/a/hrk/2020-01-01"]
             eq_refl eq_refl)).
Defined.

Lemma transport_failure_is_APIError_witness :
  Sample.fetch (Sample.answering 400 []) (Sample.eur false)
    NBPClient.TODAY NBPClient.BID_ASK []
  = (Raise (APIError (Some 400%Z)),
     ["http://api.nbp.pl/api/exchangerates/rates/c/eur/today"])
  ∧ Sample.fetch Sample.offline (Sample.eur false)
      NBPClient.CURRENT NBPClient.MID_ONLY []
    = (Raise (APIError None),
       ["http://api.nbp.pl/api/exchangerates/rates/a/eur/"]).
Proof.
  split.
  - apply (transport_failure_is_APIError str_lower Sample.currencies
             Sample.BASE_URI Sample.TABLE_MID (Sample.answering 400 [])
             Sample.parse_single Sample.parse_sequence (Sample.eur false)
             NBPClient.TODAY NBPClient.BID_ASK [] (Some 400%Z)
             eq_refl (λ _, eq_refl)).
    right. exists 400%Z, []. repeat split; reflexivity.
  - apply (transport_failure_is_APIError str_lower Sample.currencies
             Sample.BASE_URI Sample.TABLE_MID Sample.offline
             Sample.parse_single Sample.parse_sequence (Sample.eur false)
             NBPClient.CURRENT NBPClient.MID_ONLY [] None
             eq_refl).
    + intros [=].
    + left. split; reflexivity.
Defined.

Lemma inverted_range_is_rejected_witness :
  NBPClient.range str_lower Sample.currencies Sample.BASE_URI Sample.TABLE_MID
    (Sample.answering 200 []) Sample.parse_single Sample.parse_sequence
    (Sample.eur false) (mkDate 2020 2 1) (mkDate 2020 1 31)
    NBPClient.MID_ONLY []
  = (Raise ValidationError, []).
Proof.
  apply (inverted_range_is_rejected str_lower Sample.currencies
           Sample.BASE_URI Sample.TABLE_MID (Sample.answering 200 [])
           Sample.parse_single Sample.parse_sequence (Sample.eur false)
           (mkDate 2020 2 1) (mkDate 2020 1 31) NBPClient.MID_ONLY []).
  reflexivity.
Defined.

Lemma locator_shape_witness :
  ∃ tl,
    ["http://api.nbp.pl/api/exchangerates/rates/a/eur/2020-01-02"]
    = ([] ++ [Sample.BASE_URI +:+ "/exchangerates/rates/"
              +:+ str_lower (NBPClient.target_table Sample.TABLE_MID
                               NBPClient.MID_ONLY) +:+ "/"
              +:+ str_lower (NBPClient.currencyCode (Sample.eur false))
              +:+ "/" +:+ tl])%list
    ∧ tl = isoformat (mkDate 2020 1 2).
Proof.
  apply (proj1 (locator_shape str_lower Sample.currencies Sample.BASE_URI
           Sample.TABLE_MID
           (Sample.answering 200 [(mkDate 2020 1 2, "001/A/NBP/2020", 45000%Z)])
           Sample.parse_single Sample.parse_sequence (Sample.eur false)
           (NBPClient.ON_DATE (mkDate 2020 1 2)) NBPClient.MID_ONLY []
           (Ok (NBPClient.Single Sample.eur_mid_rate))
           ["http://api.nbp.pl/api/exchangerates/rates/a/eur/2020-01-02"]
           ltac:(vm_compute; reflexivity) ltac:(discriminate))).
Defined.

(** ** Strings and dates *)

Lemma ascii_lower_upper c : ascii_lower (ascii_upper c) = ascii_lower c.
Proof. destruct c as [[] [] [] [] [] [] [] []]; reflexivity. Qed.

Lemma str_lower_upper s : str_lower (str_upper s) = str_lower s.
Proof.
  unfold str_lower, str_upper.
  induction s as [| c s IH]; simpl; [done |].
  by rewrite ascii_lower_upper, IH.
Qed.

Lemma length_append (s t : string) :
  String.length (s +:+ t) = (String.length s + String.length t)%nat.
Proof. induction s as [| c s IH]; simpl; [done |]. by rewrite IH. Qed.

Lemma length_zeros n : String.length (zeros n) = n.
Proof. induction n as [| n IH]; simpl; [done |]. by rewrite IH. Qed.

Lemma length_zfill width s :
  String.length (zfill width s) = (width `max` String.length s)%nat.
Proof. unfold zfill. rewrite length_append, length_zeros. lia. Qed.

Lemma pretty_short n :
  (n < 100 * 100)%nat →
  (String.length (pretty n) ≤ (if n <? 100 then 2 else 4))%nat.
Proof.
  intros Hn.
  assert (forallb (λ n, String.length (pretty n)
                        <=? (if n <? 100 then 2 else 4))%nat
            (seq 0 (100 * 100)) = true)
    as H by (vm_compute; reflexivity).
  rewrite forallb_forall in H.
  apply Nat.leb_le, H, in_seq. lia.
Qed.

(** The ISO form of a date with a year of at most four digits has the ten
    characters of [YYYY-MM-DD]. *)
Lemma isoformat_length d :
  (year d < 100 * 100)%nat → (month d < 100)%nat → (day d < 100)%nat →
  String.length (isoformat d) = 10%nat.
Proof.
  intros Hy Hm Hd. unfold isoformat.
  rewrite !length_append, !length_zfill. simpl.
  pose proof (pretty_short (year d) Hy) as Hy'.
  pose proof (pretty_short (month d) ltac:(lia)) as Hm'.
  pose proof (pretty_short (day d) ltac:(lia)) as Hd'.
  rewrite (proj2 (Nat.ltb_lt _ _) Hm) in Hm'.
  rewrite (proj2 (Nat.ltb_lt _ _) Hd) in Hd'.
  destruct (year d <? 100)%nat; lia.
Qed.

Example isoformat_new_year : isoformat (mkDate 2020 1 1) = "2020-01-01".
Proof. reflexivity. Qed.

Example upper_eur : str_upper "eur" = "EUR" ∧ str_lower "EUR" = "eur".
Proof. split; reflexivity. Qed.

Example range_order :
  date_leb (mkDate 2020 1 31) (mkDate 2020 2 1) = true
  ∧ date_leb (mkDate 2020 2 1) (mkDate 2020 1 31) = false
  ∧ date_leb (mkDate 2020 2 1) (mkDate 2020 2 1) = true.
Proof. repeat split; reflexivity. Qed.

(** The locator the client sends is the URI the tests mock for the table the
    request targets and the resource of the call. *)
Lemma locator_is_mocked_uri BASE_URI TABLE_MID c shape kind currency :
  code currency = NBPClient.currencyCode c →
  NBPClient.locator str_lower BASE_URI TABLE_MID c shape kind
  = TestClient.MockJSONData_uri BASE_URI str_upper str_lower
      (NBPClient.target_table TABLE_MID kind) currency (NBPClient.tail shape).
Proof.
  intros Hc. unfold NBPClient.locator, TestClient.MockJSONData_uri.
  by rewrite str_lower_upper, Hc.
Qed.

(** A successful call, end to end: today's mid rate of the euro. *)
Example today_mid_only :
  Sample.fetch
    (Sample.answering 200 [(mkDate 2020 1 2, "001/A/NBP/2020", 45000%Z)])
    (Sample.eur false) NBPClient.TODAY NBPClient.MID_ONLY []
  = (Ok (NBPClient.Single Sample.eur_mid_rate),
     ["http://api.nbp.pl/api/exchangerates/rates/a/eur/today"]).
Proof. vm_compute. reflexivity. Qed.

(** * Further properties *)

(** ** The exchange rate: diagnostics, the registry entry, failures *)

Section exchange_rate_more.

Context {num : Type}.
Variable mul : num → num → num.
Variable upper : string → string.
Variable currencies : gmap string NBPCurrency.
Variable py_str : value num → string.

Import NBPExchangeRate.

Abbreviation obj := (gmap string (value num)).
Abbreviation __init__ := (NBPExchangeRate.__init__ upper currencies).
Abbreviation construct := (NBPExchangeRate.construct upper currencies).
Abbreviation set_currency_code :=
  (NBPExchangeRate.set_currency_code upper currencies).
Abbreviation __call__ := (NBPExchangeRate.__call__ mul).
Abbreviation __mul__ := (NBPExchangeRate.__mul__ mul).
Abbreviation __rmul__ := (NBPExchangeRate.__rmul__ mul).
Abbreviation __repr__ := (NBPExchangeRate.__repr__ py_str).
Abbreviation currency_name := (NBPExchangeRate.currency_name currencies).

(** The two forms of [__repr__]. *)
Abbreviation repr_mid code date mid :=
  (cls_name +:+ "(" +:+ py_str code +:+ ", " +:+ py_str date
   +:+ ", mid=" +:+ py_str mid +:+ ")").
Abbreviation repr_bid_ask code date mid bid ask :=
  (cls_name +:+ "(" +:+ py_str code +:+ ", " +:+ py_str date
   +:+ ", mid=" +:+ py_str mid +:+ ", bid=" +:+ py_str bid
   +:+ ", ask=" +:+ py_str ask +:+ ")").

Ltac run := unfold NBPExchangeRate.__call__, NBPExchangeRate.__repr__,
  NBPExchangeRate.__init__, NBPExchangeRate.set_currency_code,
  NBPExchangeRate.currency_name, currency_code, try_except, py_mul, getattr,
  setattr, raise, mbind, M_bind, mret, M_ret; simpl.

(** What [__repr__] does on any dictionary. *)
Lemma repr_cases (self : obj) :
  __repr__ self
  = match self !! "_currency_code", self !! "date", self !! "mid" with
    | None, _, _ => (Raise (AttributeError "_currency_code"), self)
    | Some _, None, _ => (Raise (AttributeError "date"), self)
    | Some _, Some _, None => (Raise (AttributeError "mid"), self)
    | Some code, Some date, Some mid =>
        match self !! "bid", self !! "ask" with
        | Some bid, Some ask =>
            (Ok (repr_bid_ask code date mid bid ask), self)
        | _, _ => (Ok (repr_mid code date mid), self)
        end
    end.
Proof.
  run.
  destruct (self !! "_currency_code") as [c |] eqn:Hc; simpl;
    rewrite ?Hc; [| done].
  destruct (self !! "date") as [d |] eqn:Hd; simpl; rewrite ?Hc, ?Hd; [| done].
  simpl.
  destruct (self !! "mid") as [m |] eqn:Hm; simpl;
    rewrite ?Hc, ?Hd, ?Hm; simpl; rewrite ?Hd, ?Hm; [| done].
  destruct (self !! "bid") as [b |] eqn:Hb; simpl;
    rewrite ?Hc, ?Hd, ?Hm; simpl; rewrite ?Hd, ?Hm; simpl; rewrite ?Hm; [| done].
  destruct (self !! "ask") as [a |] eqn:Ha; simpl;
    rewrite ?Hc; simpl; rewrite ?Hd; simpl; rewrite ?Hm; done.
Qed.

(** What [__call__] does on any dictionary. *)
Lemma call_cases (self : obj) a :
  __call__ a self
  = let mid_only :=
      match self !! "mid" with
      | Some (VNum m) => (Ok ({[ "mid" := VNum (mul m a) ]} : obj), self)
      | Some _ => (Raise TypeError, self)
      | None => (Raise (AttributeError "mid"), self)
      end in
    match self !! "bid" with
    | Some (VNum b) =>
        match self !! "ask" with
        | Some (VNum k) =>
            match self !! "mid" with
            | Some (VNum m) =>
                (Ok {[ "bid" := VNum (mul b a); "ask" := VNum (mul k a);
                       "mid" := VNum (mul m a) ]}, self)
            | Some _ => (Raise TypeError, self)
            | None => (Raise (AttributeError "mid"), self)
            end
        | Some _ => (Raise TypeError, self)
        | None => mid_only
        end
    | Some _ => (Raise TypeError, self)
    | None => mid_only
    end.
Proof.
  run.
  destruct (self !! "bid") as [[| | | b] |] eqn:Hb; simpl; try done.
  - destruct (self !! "ask") as [[| | | k] |] eqn:Hk; simpl; try done.
    + destruct (self !! "mid") as [[| | | m] |] eqn:Hm; simpl;
        rewrite ?Hm; done.
    + destruct (self !! "mid") as [[| | | m] |] eqn:Hm; simpl; done.
  - destruct (self !! "mid") as [[| | | m] |] eqn:Hm; simpl; done.
Qed.

(** The representation of a constructed exchange rate. *)
Lemma repr_of_constructed_aux code date source_id mid kwargs (self : obj) :
  construct code date source_id mid kwargs = (Ok tt, self) →
  __repr__ self
  = (Ok match kwargs !! "bid", kwargs !! "ask" with
        | Some bid, Some ask =>
            repr_bid_ask (VStr (upper code)) date mid bid ask
        | _, _ => repr_mid (VStr (upper code)) date mid
        end, self).
Proof.
  intros H. rewrite repr_cases.
  destruct (constructed_bid_ask upper currencies _ _ _ _ _ _ H)
    as [([b Hb] & [k Hk] & Hsb & Hsa) | (Hk & Hsb & Hsa & Hself)].
  - apply constructed_dict in H as [_ ->]. unfold kwargs_get.
    rewrite !bool_decide_true by (apply elem_of_dom; by eexists).
    rewrite Hb, Hk. by simplify_map_eq.
  - rewrite Hself. simplify_map_eq.
    by destruct Hk as [-> | ->]; [| destruct (kwargs !! "bid")].
Qed.

(** X1: the representation of a constructed exchange rate never fails and
    leaves it unchanged; it shows [bid] and [ask] exactly when both were
    supplied, and the currency code in upper case. *)
Theorem repr_of_constructed code date source_id mid kwargs (self : obj) :
  construct code date source_id mid kwargs = (Ok tt, self) →
  __repr__ self
  = (Ok match kwargs !! "bid", kwargs !! "ask" with
        | Some bid, Some ask =>
            repr_bid_ask (VStr (upper code)) date mid bid ask
        | _, _ => repr_mid (VStr (upper code)) date mid
        end, self).
Proof. apply repr_of_constructed_aux. Qed.

(** X2: on any object, [__repr__] returns a string exactly when the
    currency code, the date and [mid] are all set, and otherwise raises
    [AttributeError]: a missing [bid] or [ask] never makes it fail. *)
Theorem repr_fails_only_without_code_date_mid (self : obj) :
  ((∃ s, (__repr__ self).1 = Ok s)
   ↔ is_Some (self !! "_currency_code") ∧ is_Some (self !! "date")
     ∧ is_Some (self !! "mid"))
  ∧ (∀ e, (__repr__ self).1 = Raise e → is_AttributeError e = true).
Proof.
  rewrite repr_cases.
  destruct (self !! "_currency_code") as [c |];
    [destruct (self !! "date") as [d |];
       [destruct (self !! "mid") as [m |] |] |].
  - split.
    + split; [intros _; repeat split; by eexists |].
      intros _. repeat case_match; by eexists.
    + intros e. repeat case_match; by intros [=].
  - split; [| by intros e [= <-]].
    split; [by intros [s [=]] | by intros (_ & _ & [? [=]])].
  - split; [| by intros e [= <-]].
    split; [by intros [s [=]] | by intros (_ & [? [=]] & _)].
  - split; [| by intros e [= <-]].
    split; [by intros [s [=]] | by intros ([? [=]] & _)].
Qed.

(** X3: the currency name of a constructed exchange rate is the registry's
    entry of the upper-cased code; no [KeyError] is possible, and the object
    is unchanged. *)
Theorem currency_name_of_constructed code date source_id mid kwargs (self : obj) :
  construct code date source_id mid kwargs = (Ok tt, self) →
  ∃ currency,
    currencies !! upper code = Some currency
    ∧ currency_name self = (Item currency, self).
Proof.
  intros H. destruct (constructed_dict upper currencies _ _ _ _ _ _ H) as [[c Hc] ->].
  exists c. split; [done |]. run.
  by destruct (_ && _); simplify_map_eq.
Qed.

(** X4: the reading operations leave the object as it was, whatever they
    return or raise: scaling (called or through either multiplication), the
    representation, the currency code and the currency name. *)
Theorem readers_leave_the_object (self : obj) a :
  (__call__ a self).2 = self ∧ (__mul__ a self).2 = self
  ∧ (__rmul__ a self).2 = self ∧ (__repr__ self).2 = self
  ∧ (currency_code self).2 = self ∧ (currency_name self).2 = self.
Proof.
  assert ((__call__ a self).2 = self) as Hcall.
  { rewrite call_cases. simpl. repeat case_match; done. }
  repeat split; try done.
  - rewrite repr_cases. repeat case_match; done.
  - unfold currency_code, getattr. by case_match.
  - run. destruct (self !! "_currency_code") as [[| c | |] |]; simpl; try done.
    by destruct (currencies !! c).
Qed.

(** X5: scaling fails only with [TypeError], when a field it multiplies is
    not a number, or with [AttributeError] for [mid], when [mid] is
    missing; a missing [bid] or [ask] is never an error. *)
Theorem scale_failures (self : obj) a e :
  (__call__ a self).1 = Raise e →
  (e = TypeError
   ∧ ∃ attr v, attr ∈ ["bid"; "ask"; "mid"] ∧ self !! attr = Some v
               ∧ ∀ x, v ≠ VNum x)
  ∨ (e = AttributeError "mid" ∧ self !! "mid" = None).
Proof.
  rewrite call_cases. simpl.
  destruct (self !! "bid") as [vb |] eqn:Hb;
    destruct (self !! "ask") as [vk |] eqn:Hk;
    destruct (self !! "mid") as [vm |] eqn:Hm;
    try destruct vb; try destruct vk; try destruct vm; simpl;
    intros [= <-]; try (by right);
    left; (split; [done |]).
  all: match goal with
       | H : _ !! ?k = Some ?v |- _ =>
           lazymatch v with
           | VNum _ => fail
           | _ => exists k, v;
                  split; [rewrite !elem_of_cons; auto |];
                  split; [exact H | intros ?; discriminate]
           end
       end.
Qed.

(** X6: when [bid] is supplied as [None] together with an [ask], the
    exchange rate is constructed with [bid] present and holding [None]; its
    representation shows it, but every scaling raises [TypeError], which the
    handler for a missing attribute does not catch. *)
Theorem none_bid_breaks_scaling code date source_id mid kwargs ask :
  is_Some (currencies !! upper code) →
  kwargs !! "bid" = Some VNone →
  kwargs !! "ask" = Some ask →
  ∃ self : obj,
    construct code date source_id mid kwargs = (Ok tt, self)
    ∧ self !! "bid" = Some VNone
    ∧ __repr__ self
      = (Ok (repr_bid_ask (VStr (upper code)) date mid VNone ask), self)
    ∧ ∀ a, __call__ a self = (Raise TypeError, self).
Proof.
  intros Hc Hb Hk.
  destruct (construct code date source_id mid kwargs) as [r self] eqn:H.
  assert (r = Ok ()) as ->.
  { revert H. unfold NBPExchangeRate.construct.
    rewrite (init_known upper currencies) by done. by intros [= <- _]. }
  exists self. split; [done |].
  destruct (constructed_bid_ask upper currencies _ _ _ _ _ _ H)
    as [(_ & _ & Hsb & Hsa) | ([Hn | Hn] & _)]; [| congruence | congruence].
  rewrite Hb in Hsb. split; [done |]. split.
  - rewrite (repr_of_constructed_aux _ _ _ _ _ _ H). by rewrite Hb, Hk.
  - intros a. rewrite call_cases. by rewrite Hsb.
Qed.

(** X7: keyword arguments other than [bid] and [ask] are ignored: adding
    one changes neither the outcome of [__init__] nor the object it
    leaves. *)
Theorem other_kwargs_are_ignored code date source_id mid kwargs key v
    (self : obj) :
  key ≠ "bid" → key ≠ "ask" →
  __init__ code date source_id mid (<[key := v]> kwargs) self
  = __init__ code date source_id mid kwargs self.
Proof.
  intros Hb Ha. unfold NBPExchangeRate.__init__, kwargs_get.
  rewrite !dom_insert_L, !lookup_insert_ne by done.
  assert (∀ k : string, k ≠ key →
            bool_decide (k ∈ ({[key]} ∪ dom kwargs : gset string))
            = bool_decide (k ∈ dom kwargs)) as Hk.
  { intros k Hne. apply bool_decide_ext.
    rewrite elem_of_union, elem_of_singleton. split; [| by right].
    by intros [? | ?]. }
  by rewrite !Hk by done.
Qed.

(** X8: a constructed exchange rate has exactly the attributes
    [_currency_code], [date], [source_id] and [mid], and [bid] and [ask]
    besides when both were supplied; the date, the source id and [mid] are
    stored as they were passed. *)
Theorem constructed_attributes code date source_id mid kwargs (self : obj) :
  construct code date source_id mid kwargs = (Ok tt, self) →
  dom self
  = {[ "_currency_code"; "date"; "source_id"; "mid" ]}
    ∪ (if bool_decide (is_Some (kwargs !! "bid") ∧ is_Some (kwargs !! "ask"))
       then {[ "bid"; "ask" ]} else ∅)
  ∧ self !! "date" = Some date
  ∧ self !! "source_id" = Some source_id
  ∧ self !! "mid" = Some mid.
Proof.
  intros H.
  destruct (constructed_bid_ask upper currencies _ _ _ _ _ _ H)
    as [(Hb & Ha & _) | (Hk & _ & _ & Hself)].
  - apply constructed_dict in H as [_ ->].
    rewrite !bool_decide_true by (done || by apply elem_of_dom).
    simpl. rewrite !dom_insert_L, dom_empty_L.
    split; [set_solver |]. by simplify_map_eq.
  - rewrite Hself, !dom_insert_L, dom_empty_L.
    rewrite bool_decide_false; last first.
    { intros [[? ?] [? ?]]. destruct Hk; congruence. }
    split; [set_solver |]. by simplify_map_eq.
Qed.

End exchange_rate_more.

(** ** The calendar *)

Ltac dates :=
  repeat match goal with d : Date |- _ => destruct d end;
  unfold date_leb, is_date in *; cbn [year month day] in *;
  repeat progress
    (rewrite ?andb_true_iff, ?orb_true_iff, ?andb_false_iff, ?orb_false_iff,
       ?Nat.ltb_lt, ?Nat.leb_le, ?Nat.eqb_eq, ?Nat.ltb_ge, ?Nat.leb_gt,
       ?Nat.eqb_neq in *).

Lemma days_in_month_bounds y m : (28 ≤ days_in_month y m ≤ 31)%nat.
Proof. unfold days_in_month. repeat case_match; lia. Qed.

Lemma date_leb_refl d : date_leb d d = true.
Proof. dates. lia. Qed.

Lemma date_leb_trans a b c :
  date_leb a b = true → date_leb b c = true → date_leb a c = true.
Proof. dates. lia. Qed.

Lemma date_leb_antisym a b :
  date_leb a b = true → date_leb b a = true → a = b.
Proof. dates. intros. f_equal; lia. Qed.

Lemma date_leb_total a b : date_leb a b = false → date_leb b a = true.
Proof. dates. lia. Qed.

(** The last date a [datetime] can hold is above all of them. *)
Lemma is_date_max d : is_date d = true → date_leb d (mkDate MAXYEAR 12 31) = true.
Proof.
  pose proof (days_in_month_bounds (year d) (month d)). dates. lia.
Qed.

(** Adding a day gives a later date. *)
Lemma add_day_later d d' :
  add_day d = Some d' → date_leb d d' = true ∧ date_leb d' d = false.
Proof.
  unfold add_day.
  destruct (Nat.ltb_spec (day d) (days_in_month (year d) (month d)));
    [| destruct (Nat.ltb_spec (month d) 12);
       [| destruct (Nat.ltb_spec (year d) MAXYEAR)]];
    intros [= <-]; dates; lia.
Qed.

(** Adding a day to a date gives a date. *)
Lemma add_day_is_date d d' :
  is_date d = true → add_day d = Some d' → is_date d' = true.
Proof.
  unfold add_day. intros Hd.
  pose proof (days_in_month_bounds (year d) (S (month d))).
  pose proof (days_in_month_bounds (S (year d)) 1).
  destruct (Nat.ltb_spec (day d) (days_in_month (year d) (month d)));
    [| destruct (Nat.ltb_spec (month d) 12);
       [| destruct (Nat.ltb_spec (year d) MAXYEAR)]];
    intros [= <-]; dates; lia.
Qed.

(** No date lies between a date and the day after it. *)
Lemma add_day_least d d' x :
  add_day d = Some d' → is_date x = true →
  date_leb d x = true → x ≠ d → date_leb d' x = true.
Proof.
  unfold add_day. intros Hadd Hx Hle Hne.
  assert (date_leb x d = false) as Hlt.
  { destruct (date_leb x d) eqn:E; [| done].
    destruct Hne. by apply date_leb_antisym. }
  clear Hne.
  assert (year x = year d → month x = month d →
          (day x ≤ days_in_month (year d) (month d))%nat) as Hday.
  { intros <- <-. unfold is_date in Hx.
    apply andb_true_iff in Hx as [_ Hx]. by apply Nat.leb_le. }
  revert Hadd.
  destruct (Nat.ltb_spec (day d) (days_in_month (year d) (month d)));
    [| destruct (Nat.ltb_spec (month d) 12);
       [| destruct (Nat.ltb_spec (year d) MAXYEAR)]];
    intros [= <-]; dates; lia.
Qed.

(** Only the last day of [MAXYEAR] has no day after it. *)
Lemma add_day_overflow d :
  is_date d = true → add_day d = None → d = mkDate MAXYEAR 12 31.
Proof.
  destruct d as [y m dy]. unfold add_day. cbn [year month day]. intros Hd.
  pose proof (days_in_month_bounds y m).
  destruct (Nat.ltb_spec dy (days_in_month y m));
    [| destruct (Nat.ltb_spec m 12); [| destruct (Nat.ltb_spec y MAXYEAR)]];
    intros [=]. dates.
  assert (m = 12) as -> by lia. simpl in *. f_equal; lia.
Qed.

(** What [_date_range] yields between two dates, and how it ends. *)
Lemma date_range_spec date end_date :
  is_date date = true → is_date end_date = true →
  (∀ x, x ∈ (TestClient._date_range date end_date).1
        ↔ is_date x = true ∧ date_leb date x = true
          ∧ date_leb x end_date = true)
  ∧ (∀ x, (TestClient._date_range date end_date).1 !! 0 = Some x → x = date)
  ∧ (∀ i a b,
       (TestClient._date_range date end_date).1 !! i = Some a →
       (TestClient._date_range date end_date).1 !! S i = Some b →
       add_day a = Some b)
  ∧ ((TestClient._date_range date end_date).2 = OverflowError
     ↔ date_leb date end_date = true ∧ end_date = mkDate MAXYEAR 12 31).
Proof.
  funelim (TestClient._date_range date end_date); intros Hd He; simpl.
  - (* the loop is not entered *)
    split; [| split; [| split]].
    + intros x. split; [by intros ?%elem_of_nil |].
      intros (_ & H1 & H2).
      pose proof (date_leb_trans _ _ _ H1 H2). congruence.
    + done.
    + done.
    + split; [done | intros [? _]; congruence].
  - (* a day is yielded and the loop goes on *)
    pose proof (add_day_is_date _ _ Hd Hadd) as Hd'.
    destruct (H Hd' He) as (Hin & Hhd & Hnext & Hov). clear H.
    destruct (add_day_later _ _ Hadd) as [Hle Hlt].
    split; [| split; [| split]].
    + intros x. rewrite elem_of_cons, Hin. split.
      * intros [-> | (? & ? & ?)]; [by rewrite date_leb_refl |].
        repeat split; try done. by eapply date_leb_trans.
      * intros (Hx & H1 & H2).
        destruct (date_leb x date) eqn:E.
        { left. by apply date_leb_antisym. }
        right. repeat split; try done.
        eapply add_day_least; try done. by intros ->; rewrite date_leb_refl in E.
    + by intros x [= <-].
    + intros [| i] a b; simpl.
      * intros [= <-] Hb. by apply Hhd in Hb as ->.
      * apply Hnext.
    + rewrite Hov. split.
      * by intros [_ ->].
      * intros [_ ->]. split; [| done]. by apply is_date_max.
  - (* the last day of MAXYEAR is yielded and the addition overflows *)
    pose proof (add_day_overflow _ Hd e) as ->.
    split; [| split; [| split]].
    + intros x. rewrite list_elem_of_singleton. split.
      * intros ->. by rewrite date_leb_refl.
      * intros (Hx & H1 & H2).
        apply date_leb_antisym; [by apply is_date_max | done].
    + by intros x [= <-].
    + by intros [| i] a b.
    + split; [intros _ | done]. split; [done |].
      apply date_leb_antisym; [by apply is_date_max | done].
Qed.

(** Consecutive days are in ascending order. *)
Lemma consecutive_ascending (l : list Date) :
  (∀ i a b, l !! i = Some a → l !! S i = Some b → add_day a = Some b) →
  ∀ i j a b, (i < j)%nat → l !! i = Some a → l !! j = Some b →
             date_leb a b = true ∧ date_leb b a = false.
Proof.
  intros Hnext i j a b Hij Ha. revert b.
  induction Hij as [| j Hij IH]; intros b Hb.
  - by eapply add_day_later, Hnext.
  - destruct (l !! j) as [c |] eqn:Hc.
    + destruct (IH c eq_refl) as [H1 H2].
      destruct (add_day_later c b) as [H3 H4]; [by eapply Hnext |].
      split; [by eapply date_leb_trans |].
      destruct (date_leb b a) eqn:E; [| done].
      pose proof (date_leb_trans _ _ _ E H1). congruence.
    + apply lookup_ge_None in Hc. apply lookup_lt_Some in Hb. lia.
Qed.

(** ** The mocked data of the tests *)

Section mock_properties.

Context {num Rng : Type}.
Variable BASE_URI : string.
Variable upper lower : string → string.
Variable randint : Z → Z → Rng → Z * Rng.
Variable rate_value : Rng → num * Rng.

Import TestClient.

Abbreviation MockJSONData_uri :=
  (TestClient.MockJSONData_uri BASE_URI upper lower).
Abbreviation rate := (TestClient.rate randint rate_value).
Abbreviation rates_for := (TestClient.rates_for randint rate_value).
Abbreviation data := (TestClient.data randint rate_value).

(** X9: between two dates, the second of which is not the last day a
    [datetime] can hold, [_date_range] ends normally and yields exactly the
    dates from the first to the second, both included, each the day after
    the one before, so in ascending order and without repetition; it yields
    nothing when the first is after the second. *)
Theorem date_range_yields_the_days start_date end_date :
  is_date start_date = true → is_date end_date = true →
  end_date ≠ mkDate MAXYEAR 12 31 →
  (_date_range start_date end_date).2 = StopIteration
  ∧ (∀ x, x ∈ (_date_range start_date end_date).1
          ↔ is_date x = true ∧ date_leb start_date x = true
            ∧ date_leb x end_date = true)
  ∧ (∀ x, (_date_range start_date end_date).1 !! 0 = Some x → x = start_date)
  ∧ (∀ i a b,
       (_date_range start_date end_date).1 !! i = Some a →
       (_date_range start_date end_date).1 !! S i = Some b →
       add_day a = Some b)
  ∧ (∀ i j a b, (i < j)%nat →
       (_date_range start_date end_date).1 !! i = Some a →
       (_date_range start_date end_date).1 !! j = Some b →
       date_leb b a = false)
  ∧ (date_leb start_date end_date = false →
     (_date_range start_date end_date).1 = []).
Proof.
  intros Hs He Hmax.
  destruct (date_range_spec start_date end_date Hs He)
    as (Hin & Hhd & Hnext & Hov).
  split; [| split; [| split; [| split; [| split]]]]; try done.
  - destruct (_date_range start_date end_date).2; [done |].
    by destruct (proj1 Hov eq_refl).
  - intros i j a b Hij Ha Hb.
    by destruct (consecutive_ascending _ Hnext i j a b).
  - intros Hlt.
    destruct (_date_range start_date end_date).1 as [| x l] eqn:E; [done |].
    destruct (proj1 (Hin x)) as (_ & H1 & H2); [by left |].
    pose proof (date_leb_trans _ _ _ H1 H2). congruence.
Qed.

(** X10: a range that ends on the last day a [datetime] can hold cannot be
    generated: after that day is yielded the addition of a day raises
    [OverflowError], and so does [data], also for that single day. *)
Theorem date_range_overflows_at_max start_date (self : MockJSONData) g :
  is_date start_date = true →
  (_date_range start_date (mkDate MAXYEAR 12 31)).2 = OverflowError
  ∧ last (_date_range start_date (mkDate MAXYEAR 12 31)).1
    = Some (mkDate MAXYEAR 12 31)
  ∧ (data self start_date (Some (mkDate MAXYEAR 12 31)) g).1
    = RaisesOverflowError
  ∧ (data self (mkDate MAXYEAR 12 31) None g).1 = RaisesOverflowError.
Proof.
  intros Hs.
  assert (is_date (mkDate MAXYEAR 12 31) = true) as Hm by done.
  assert (∀ s, is_date s = true →
            (_date_range s (mkDate MAXYEAR 12 31)).2 = OverflowError) as Hov.
  { intros s H. apply (date_range_spec s _ H Hm). split; [| done].
    by apply is_date_max. }
  split; [by apply Hov |]. split.
  - destruct (date_range_spec start_date _ Hs Hm) as (Hin & _ & _ & _).
    destruct (date_range_spec start_date _ Hs Hm) as (_ & _ & Hnext & _).
    assert (mkDate MAXYEAR 12 31 ∈ (_date_range start_date (mkDate MAXYEAR 12 31)).1)
      as [i Hi]%list_elem_of_lookup.
    { apply Hin.
      split; [done | split; [by apply is_date_max | by apply date_leb_refl]]. }
    rewrite last_lookup.
    destruct ((_date_range start_date (mkDate MAXYEAR 12 31)).1 !! S i)
      as [b |] eqn:Hb.
    { by pose proof (Hnext _ _ _ Hi Hb). }
    apply lookup_ge_None in Hb. pose proof (lookup_lt_Some _ _ _ Hi).
    by replace (Init.Nat.pred _) with i by lia.
  - unfold TestClient.data. simpl. split.
    + pose proof (Hov start_date Hs) as Ho.
      destruct (_date_range start_date _) as [l how]. simpl in Ho. subst how.
      by destruct (TestClient.rates_for _ _ _ _ _).
    + pose proof (Hov _ Hm) as Ho.
      destruct (_date_range (mkDate MAXYEAR 12 31) _) as [l how].
      simpl in Ho. subst how.
      by destruct (TestClient.rates_for _ _ _ _ _).
Qed.

(** The effective date of a mocked rate is the ISO form of its day. *)
Lemma rate_effectiveDate (self : MockJSONData) date g :
  (rate self date g).1 !! "effectiveDate" = Some (VStr (isoformat date)).
Proof.
  unfold TestClient.rate, TestClient.source_id.
  destruct (randint 1 365 g) as [count g1].
  destruct (String.eqb _ _).
  - destruct (rate_value g1) as [bid g2], (rate_value g2) as [ask g3].
    by simplify_map_eq.
  - destruct (rate_value g1) as [mid g2]. by simplify_map_eq.
Qed.

Lemma rates_for_effectiveDate (self : MockJSONData) dates g :
  (λ r : gmap string (value num), r !! "effectiveDate")
    <$> (rates_for self dates g).1
  = (λ d, Some (VStr (isoformat d))) <$> dates.
Proof.
  revert g. induction dates as [| d dates IH]; intros g; [done |].
  simpl. pose proof (rate_effectiveDate self d g) as Hr.
  destruct (rate self d g) as [r g1]. specialize (IH g1).
  destruct (rates_for self dates g1) as [rs g2]. simpl in *.
  by f_equal.
Qed.

(** The range of a single day. *)
Lemma date_range_single d next :
  add_day d = Some next → _date_range d d = ([d], StopIteration).
Proof.
  intros Hadd. destruct (add_day_later _ _ Hadd) as [_ Hlt].
  rewrite _date_range_equation_1. unfold _date_range_unfold_clause_1.
  rewrite date_leb_refl.
  generalize (Logic.inspect (add_day d)). intros [[d' |] Hd]; simpl;
    [| congruence].
  assert (d' = next) as -> by congruence.
  rewrite _date_range_equation_1. unfold _date_range_unfold_clause_1.
  by rewrite Hlt.
Qed.

(** X11: without an end date, [data] gives the payload of the single day
    [start_date], with one rate, as long as that day has a day after it. *)
Theorem data_single_day (self : MockJSONData) start_date next g :
  add_day start_date = Some next →
  data self start_date None g
  = (Returns (mkPayload (self_table self) (name (self_currency self))
                (code (self_currency self)) [(rate self start_date g).1]),
     (rate self start_date g).2)
  ∧ data self start_date None g = data self start_date (Some start_date) g.
Proof.
  intros Hadd. split; [| done].
  unfold TestClient.data. cbn [default].
  rewrite (date_range_single _ _ Hadd). simpl.
  by destruct (rate self start_date g).
Qed.

(** X12: when [data] returns, the payload names the table and the currency
    of the mock and holds one rate for each day [_date_range] yields, in the
    same order, dated with the ISO form of that day. *)
Theorem data_rates_follow_the_days (self : MockJSONData) start_date end_date
    g p g' :
  data self start_date end_date g = (Returns p, g') →
  payload_table p = self_table self
  ∧ payload_currency p = name (self_currency self)
  ∧ payload_code p = code (self_currency self)
  ∧ (λ r : gmap string (value num), r !! "effectiveDate") <$> payload_rates p
    = (λ d, Some (VStr (isoformat d)))
        <$> (_date_range start_date (default start_date end_date)).1
  ∧ length (payload_rates p)
    = length (_date_range start_date (default start_date end_date)).1.
Proof.
  unfold TestClient.data.
  pose proof (rates_for_effectiveDate self
                (_date_range start_date (default start_date end_date)).1 g)
    as Hr.
  destruct (_date_range start_date (default start_date end_date))
    as [dates how].
  simpl in Hr.
  destruct (rates_for self dates g) as [rs g1]. simpl in Hr.
  destruct how; intros [= <- <-]. simpl.
  repeat split; try done.
  apply (f_equal length) in Hr. by rewrite !length_fmap in Hr.
Qed.

(** X13: a mocked rate always has [no] and [effectiveDate]; for the table
    [C] it has [bid] and [ask] and no [mid], for any other table [mid] and
    neither [bid] nor [ask]. *)
Theorem rate_fields (self : MockJSONData) date g :
  (self_table self = "C" →
   dom (rate self date g).1 = {[ "no"; "effectiveDate"; "bid"; "ask" ]})
  ∧ (self_table self ≠ "C" →
     dom (rate self date g).1 = {[ "no"; "effectiveDate"; "mid" ]}).
Proof.
  unfold TestClient.rate, TestClient.source_id.
  destruct (randint 1 365 g) as [count g1].
  destruct (String.eqb_spec (self_table self) "C") as [-> | Hne].
  - destruct (rate_value g1) as [bid g2], (rate_value g2) as [ask g3].
    split; [intros _ | done]. simpl.
    rewrite !dom_insert_L, dom_singleton_L. set_solver.
  - destruct (rate_value g1) as [mid g2].
    split; [done | intros _]. simpl.
    rewrite !dom_insert_L, dom_singleton_L. set_solver.
Qed.

Lemma append_cancel_l (s a b : string) : s +:+ a = s +:+ b → a = b.
Proof. induction s as [| c s IH]; simpl; [done |]. intros [= H]. auto. Qed.

(** X15: the mocked URI determines the resource: mocks of the same table
    and currency for different resources have different URIs. *)
Theorem mocked_uri_determines_resource table currency tail1 tail2 :
  MockJSONData_uri table currency tail1 = MockJSONData_uri table currency tail2 →
  tail1 = tail2.
Proof.
  unfold TestClient.MockJSONData_uri.
  by intros ?%append_cancel_l%append_cancel_l%append_cancel_l%append_cancel_l
            %append_cancel_l%append_cancel_l.
Qed.

End mock_properties.

Lemma ascii_lower_idemp c : ascii_lower (ascii_lower c) = ascii_lower c.
Proof. destruct c as [[] [] [] [] [] [] [] []]; reflexivity. Qed.

Lemma str_lower_idemp s : str_lower (str_lower s) = str_lower s.
Proof.
  unfold str_lower. induction s as [| c s IH]; simpl; [done |].
  by rewrite ascii_lower_idemp, IH.
Qed.

(** X14: on ASCII strings, the mocked URI does not depend on the case in
    which the table and the currency code are written: it is built from
    their lower-case forms. *)
Theorem mocked_uri_ignores_case BASE_URI table table' currency currency' tail :
  str_lower table = str_lower table' →
  str_lower (code currency) = str_lower (code currency') →
  TestClient.MockJSONData_uri BASE_URI str_upper str_lower table currency tail
  = TestClient.MockJSONData_uri BASE_URI str_upper str_lower table' currency'
      tail
  ∧ TestClient.MockJSONData_uri BASE_URI str_upper str_lower table currency tail
    = BASE_URI +:+ "/exchangerates/rates/" +:+ str_lower table +:+ "/"
      +:+ str_lower (code currency) +:+ "/" +:+ tail.
Proof.
  intros Ht Hc. unfold TestClient.MockJSONData_uri.
  by rewrite !str_lower_upper, Ht, Hc.
Qed.

(** ** The further properties on the concrete instance *)

Lemma repr_of_constructed_witness :
  NBPExchangeRate.__repr__ Sample.py_str Sample.eur_rate
  = (Ok "NBPExchangeRate(EUR, 2020-01-02, mid=45000, bid=44000, ask=46000)",
     Sample.eur_rate).
Proof.
  assert (NBPExchangeRate.construct str_upper Sample.currencies "eur"
    (VDate (mkDate 2020 1 2)) (VStr "001/C/NBP/2020") (VNum 45000%Z)
    Sample.bid_ask = (Ok tt, Sample.eur_rate)) as H by (vm_compute; reflexivity).
  exact (repr_of_constructed str_upper Sample.currencies Sample.py_str
           _ _ _ _ _ _ H).
Defined.

Lemma repr_fails_only_without_code_date_mid_witness :
  is_Some (Sample.hrk_rate !! "_currency_code")
  ∧ is_Some (Sample.hrk_rate !! "date") ∧ is_Some (Sample.hrk_rate !! "mid").
Proof.
  apply (proj1 (proj1 (repr_fails_only_without_code_date_mid Sample.py_str
                         Sample.hrk_rate))).
  exists "NBPExchangeRate(HRK, 2020-01-02, mid=5900)". vm_compute. reflexivity.
Defined.

Lemma currency_name_of_constructed_witness :
  ∃ currency,
    Sample.currencies !! str_upper "eur" = Some currency
    ∧ NBPExchangeRate.currency_name Sample.currencies Sample.eur_rate
      = (NBPExchangeRate.Item currency, Sample.eur_rate).
Proof.
  assert (NBPExchangeRate.construct str_upper Sample.currencies "eur"
    (VDate (mkDate 2020 1 2)) (VStr "001/C/NBP/2020") (VNum 45000%Z)
    Sample.bid_ask = (Ok tt, Sample.eur_rate)) as H by (vm_compute; reflexivity).
  exact (currency_name_of_constructed str_upper Sample.currencies
           _ _ _ _ _ _ H).
Defined.

Lemma scale_failures_witness :
  (TypeError = TypeError
   ∧ ∃ attr v, attr ∈ ["bid"; "ask"; "mid"]
               ∧ (<["bid" := VNone]> Sample.eur_rate) !! attr = Some v
               ∧ ∀ x : Z, v ≠ VNum x)
  ∨ (TypeError = AttributeError "mid"
     ∧ (<["bid" := VNone]> Sample.eur_rate) !! "mid" = None).
Proof.
  apply (scale_failures Z.mul (<["bid" := VNone]> Sample.eur_rate) 10%Z).
  vm_compute. reflexivity.
Defined.

Lemma none_bid_breaks_scaling_witness :
  ∃ self : gmap string (value Z),
    NBPExchangeRate.construct str_upper Sample.currencies "eur"
      (VDate (mkDate 2020 1 2)) (VStr "001/C/NBP/2020") (VNum 45000%Z)
      {[ "bid" := VNone; "ask" := VNum 46000%Z ]} = (Ok tt, self)
    ∧ self !! "bid" = Some VNone
    ∧ NBPExchangeRate.__repr__ Sample.py_str self
      = (Ok (NBPExchangeRate.cls_name +:+ "(" +:+ Sample.py_str (VStr (str_upper "eur"))
             +:+ ", " +:+ Sample.py_str (VDate (mkDate 2020 1 2))
             +:+ ", mid=" +:+ Sample.py_str (VNum 45000%Z)
             +:+ ", bid=" +:+ Sample.py_str VNone
             +:+ ", ask=" +:+ Sample.py_str (VNum 46000%Z) +:+ ")"), self)
    ∧ ∀ a, NBPExchangeRate.__call__ Z.mul a self = (Raise TypeError, self).
Proof.
  apply (none_bid_breaks_scaling Z.mul str_upper Sample.currencies
           Sample.py_str "eur").
  - exists Sample.eur_entry. reflexivity.
  - reflexivity.
  - reflexivity.
Defined.

Lemma other_kwargs_are_ignored_witness :
  NBPExchangeRate.__init__ str_upper Sample.currencies "eur"
    (VDate (mkDate 2020 1 2)) (VStr "001/C/NBP/2020") (VNum 45000%Z)
    (<["spread" := VNum 2000%Z]> Sample.bid_ask) ∅
  = NBPExchangeRate.__init__ str_upper Sample.currencies "eur"
      (VDate (mkDate 2020 1 2)) (VStr "001/C/NBP/2020") (VNum 45000%Z)
      Sample.bid_ask ∅.
Proof.
  apply (other_kwargs_are_ignored str_upper Sample.currencies "eur");
    discriminate.
Defined.

Lemma constructed_attributes_witness :
  dom Sample.hrk_rate
  = {[ "_currency_code"; "date"; "source_id"; "mid" ]}
    ∪ (if bool_decide (is_Some ((∅ : gmap string (value Z)) !! "bid")
                       ∧ is_Some ((∅ : gmap string (value Z)) !! "ask"))
       then {[ "bid"; "ask" ]} else ∅)
  ∧ Sample.hrk_rate !! "date" = Some (VDate (mkDate 2020 1 2))
  ∧ Sample.hrk_rate !! "source_id" = Some (VStr "001/A/NBP/2020")
  ∧ Sample.hrk_rate !! "mid" = Some (VNum 5900%Z).
Proof.
  assert (NBPExchangeRate.construct str_upper Sample.currencies "hrk"
    (VDate (mkDate 2020 1 2)) (VStr "001/A/NBP/2020") (VNum 5900%Z) ∅
    = (Ok tt, Sample.hrk_rate)) as H by (vm_compute; reflexivity).
  exact (constructed_attributes str_upper Sample.currencies _ _ _ _ _ _ H).
Defined.

Lemma date_range_yields_the_days_witness :
  (TestClient._date_range (mkDate 2020 2 27) (mkDate 2020 3 2)).2
  = StopIteration
  ∧ ∀ x, (TestClient._date_range (mkDate 2020 2 27) (mkDate 2020 3 2)).1 !! 0
         = Some x → x = mkDate 2020 2 27.
Proof.
  destruct (date_range_yields_the_days (mkDate 2020 2 27) (mkDate 2020 3 2))
    as (Hend & _ & Hhd & _).
  - reflexivity.
  - reflexivity.
  - discriminate.
  - split; [exact Hend | exact Hhd].
Defined.

Lemma date_range_overflows_at_max_witness :
  (TestClient._date_range (mkDate MAXYEAR 12 30) (mkDate MAXYEAR 12 31)).2
  = OverflowError
  ∧ (TestClient.data Sample.randint Sample.rate_value Sample.mock_a
       (mkDate MAXYEAR 12 31) None 0%nat).1
    = TestClient.RaisesOverflowError.
Proof.
  destruct (date_range_overflows_at_max Sample.randint Sample.rate_value
              (mkDate MAXYEAR 12 30) Sample.mock_a 0%nat)
    as (Hov & _ & _ & Hdata).
  - reflexivity.
  - split; [exact Hov | exact Hdata].
Defined.

Lemma data_single_day_witness :
  TestClient.data Sample.randint Sample.rate_value Sample.mock_a
    (mkDate 2020 2 29) None 0%nat
  = TestClient.data Sample.randint Sample.rate_value Sample.mock_a
      (mkDate 2020 2 29) (Some (mkDate 2020 2 29)) 0%nat.
Proof.
  apply (proj2 (data_single_day Sample.randint Sample.rate_value
                  Sample.mock_a (mkDate 2020 2 29) (mkDate 2020 3 1) 0%nat
                  eq_refl)).
Defined.

Lemma data_rates_follow_the_days_witness :
  ∃ p g',
    TestClient.data Sample.randint Sample.rate_value Sample.mock_c
      (mkDate 2020 2 28) (Some (mkDate 2020 3 1)) 0%nat
    = (TestClient.Returns p, g')
    ∧ TestClient.payload_table p = "C"
    ∧ length (TestClient.payload_rates p) = 3%nat.
Proof.
  destruct (TestClient.data Sample.randint Sample.rate_value Sample.mock_c
              (mkDate 2020 2 28) (Some (mkDate 2020 3 1)) 0%nat)
    as [[p |] g'] eqn:E; [| by vm_compute in E].
  exists p, g'. split; [reflexivity |].
  destruct (data_rates_follow_the_days Sample.randint Sample.rate_value
              _ _ _ _ _ _ E) as (Ht & _ & _ & _ & Hl).
  split; [exact Ht | exact Hl].
Defined.

Lemma rate_fields_witness :
  dom (TestClient.rate Sample.randint Sample.rate_value Sample.mock_c
         (mkDate 2020 1 2) 0%nat).1
  = {[ "no"; "effectiveDate"; "bid"; "ask" ]}
  ∧ dom (TestClient.rate Sample.randint Sample.rate_value Sample.mock_a
           (mkDate 2020 1 2) 0%nat).1
    = {[ "no"; "effectiveDate"; "mid" ]}.
Proof.
  split.
  - apply (proj1 (rate_fields Sample.randint Sample.rate_value Sample.mock_c
                    (mkDate 2020 1 2) 0%nat)).
    reflexivity.
  - apply (proj2 (rate_fields Sample.randint Sample.rate_value Sample.mock_a
                    (mkDate 2020 1 2) 0%nat)).
    discriminate.
Defined.

Lemma mocked_uri_determines_resource_witness :
  TestClient.MockJSONData_uri Sample.BASE_URI str_upper str_lower "A"
    Sample.eur_entry (isoformat (mkDate 2020 1 2))
  = TestClient.MockJSONData_uri Sample.BASE_URI str_upper str_lower "A"
      Sample.eur_entry "2020-01-02"
  ∧ isoformat (mkDate 2020 1 2) = "2020-01-02".
Proof.
  split; [reflexivity |].
  apply (mocked_uri_determines_resource Sample.BASE_URI str_upper str_lower
           "A" Sample.eur_entry (isoformat (mkDate 2020 1 2)) "2020-01-02").
  reflexivity.
Defined.

Lemma mocked_uri_ignores_case_witness :
  TestClient.MockJSONData_uri Sample.BASE_URI str_upper str_lower "c"
    Sample.eur_entry "today"
  = TestClient.MockJSONData_uri Sample.BASE_URI str_upper str_lower "C"
      (mkCurrency "eur" "euro" ["A"; "C"]) "today".
Proof.
  apply (proj1 (mocked_uri_ignores_case Sample.BASE_URI "c" "C"
                  Sample.eur_entry (mkCurrency "eur" "euro" ["A"; "C"])
                  "today" eq_refl eq_refl)).
Defined.
